(** * Session Generation Engine: sessions, turns, pause/resume, sanitizer

    A shallow embedding of the session endpoints and generators of
    [reverse-engineered/00/app.py] (with [chat_call] of [core.py]), and the
    properties of the specification that concern them.

    Modelling conventions.
    - A persisted session document is a record; the sessions directory is a
      finite map from session id to document.  [json.dump] followed by
      [json.load] is the identity on documents, and file reads and writes
      succeed.
    - The generation provider is an oracle: the outcome of the n-th call, for
      the request that is sent.  Every call made is appended to a trace, so
      the number of attempts and the speaker of each one are observable.
    - Timestamps are opaque values read from a clock.
    - Text is a sequence of characters with code points below 256.
    - The analytics side files are not modelled. *)

From Stdlib Require Import ZArith String Ascii List Bool Lia.
From stdpp Require Import base gmap strings list pretty.

Local Open Scope Z_scope.

(** ** Text helpers *)

Definition nl : string := String (ascii_of_nat 10) EmptyString.

(** [str.isspace] on the code points below 256. *)
Definition is_space (c : ascii) : bool :=
  let n := nat_of_ascii c in
  ((9 <=? n)%nat && (n <=? 13)%nat) || ((28 <=? n)%nat && (n <=? 32)%nat)
  || (n =? 133)%nat || (n =? 160)%nat.

Fixpoint lstrip (s : string) : string :=
  match s with
  | EmptyString => EmptyString
  | String c s' => if is_space c then lstrip s' else s
  end.

Fixpoint rev_string (s acc : string) : string :=
  match s with
  | EmptyString => acc
  | String c s' => rev_string s' (String c acc)
  end.

(** [s.strip()] *)
Definition strip (s : string) : string :=
  rev_string (lstrip (rev_string (lstrip s) "")) "".

(** [sep.join(parts)] *)
Definition join (sep : string) (parts : list string) : string :=
  String.concat sep parts.

(** Truth value of a Python string: non-empty. *)
Definition truthy (s : string) : bool :=
  match s with EmptyString => false | _ => true end.

(** ** Data model *)

Definition Timestamp := Z.

(** A JSON field holding an integer: the key may be missing, or hold null. *)
Inductive JInt : Type :=
| Absent
| Null
| Int (z : Z).

(** [d.get(key)]: a missing key reads as [None]. *)
Definition jget (f : JInt) : option Z :=
  match f with
  | Int z => Some z
  | _ => None
  end.

(** [d.get(key, default)]: only a missing key takes the default. *)
Definition jget_default (f : JInt) (d : Z) : option Z :=
  match f with
  | Absent => Some d
  | Null => None
  | Int z => Some z
  end.

(** [d.get(key) == n] *)
Definition jeq (f : JInt) (n : Z) : bool :=
  match jget f with
  | Some z => z =? n
  | None => false
  end.

(** An entry of [session_data['characters']].  Of the character sheet under
    ['data'] only the two lore fields read by the prompt builders are kept;
    the rest (model, sampling, remaining lore) is consumed by
    [convert_character_data_to_character], which never raises, and by the
    provider. *)
Record Participant : Type := {
  c_id : string;
  c_name : string;
  lore_description : option string;
  lore_personality : option string
}.

Record Message : Type := {
  msg_type : string;
  msg_character : option string;
  msg_content : string;
  msg_timestamp : Timestamp;
  msg_sanitized : option bool
}.

Record Session : Type := {
  s_id : string;
  s_type : string;
  chatMode : option string;
  title : string;
  characters : list Participant;
  scenario : string;
  setting : string;
  turns : JInt;
  parts : JInt;
  created_at : Timestamp;
  status : string;
  messages : list Message;
  paused : option bool;
  paused_at : option Timestamp;
  is_completed : option bool
}.

Definition set_messages (ms : list Message) (s : Session) : Session :=
  {| s_id := s_id s; s_type := s_type s; chatMode := chatMode s;
     title := title s; characters := characters s; scenario := scenario s;
     setting := setting s; turns := turns s; parts := parts s;
     created_at := created_at s; status := status s; messages := ms;
     paused := paused s; paused_at := paused_at s;
     is_completed := is_completed s |}.

Definition set_status (st : string) (s : Session) : Session :=
  {| s_id := s_id s; s_type := s_type s; chatMode := chatMode s;
     title := title s; characters := characters s; scenario := scenario s;
     setting := setting s; turns := turns s; parts := parts s;
     created_at := created_at s; status := st; messages := messages s;
     paused := paused s; paused_at := paused_at s;
     is_completed := is_completed s |}.

Definition set_is_completed (b : option bool) (s : Session) : Session :=
  {| s_id := s_id s; s_type := s_type s; chatMode := chatMode s;
     title := title s; characters := characters s; scenario := scenario s;
     setting := setting s; turns := turns s; parts := parts s;
     created_at := created_at s; status := status s; messages := messages s;
     paused := paused s; paused_at := paused_at s;
     is_completed := b |}.

Definition set_pause_markers (p : option bool) (t : option Timestamp)
    (s : Session) : Session :=
  {| s_id := s_id s; s_type := s_type s; chatMode := chatMode s;
     title := title s; characters := characters s; scenario := scenario s;
     setting := setting s; turns := turns s; parts := parts s;
     created_at := created_at s; status := status s; messages := messages s;
     paused := p; paused_at := t;
     is_completed := is_completed s |}.

(** [session_data['messages'].append(m)] *)
Definition append_message (m : Message) (s : Session) : Session :=
  set_messages (messages s ++ [m]) s.

Definition is_ai (m : Message) : bool := String.eqb (msg_type m) "ai".

(** [[msg for msg in messages if msg['type'] == 'ai']] *)
Definition ai_messages (ms : list Message) : list Message :=
  List.filter is_ai ms.

Definition ai_count (ms : list Message) : nat := length (ai_messages ms).

(** [session_data.get('paused', False)] used as a condition. *)
Definition is_paused (s : Session) : bool :=
  match paused s with
  | Some b => b
  | None => false
  end.

(** ** Provider, files and the world *)

(** Who a request is sent as: a character of the session (through
    [chat_call]) or a bare model id (the sanitizer's direct client call). *)
Inductive Agent : Type :=
| CharacterAgent (c : Participant)
| ModelAgent (model : string).

Record Request : Type := {
  rq_agent : Agent;
  rq_history : list (string * string);
  rq_user_msg : string
}.

(** What the client call does: it raises, or it returns a completion whose
    content may be [None]. *)
Inductive Outcome : Type :=
| Raises
| Content (c : option string).

(** A sanitization preset file: unreadable, or a document with an optional
    model id. *)
Inductive PresetFile : Type :=
| Unreadable
| Preset (model : option string).

Record Env : Type := {
  provider : nat -> Request -> Outcome;
  clock : nat -> Timestamp;
  preset_files : gmap string PresetFile;
  character_files : gmap string Participant;
  session_ids : nat -> string
}.

Record World : Type := {
  files : gmap string Session;
  trace : list Request;
  log : list string;
  ticks : nat
}.

Definition set_files (fs : gmap string Session) (w : World) : World :=
  {| files := fs; trace := trace w; log := log w; ticks := ticks w |}.

(** [json.dump(session_data, f)] on the session file. *)
Definition write_session (sid : string) (s : Session) (w : World) : World :=
  set_files (<[sid := s]> (files w)) w.

(** [app.logger.error(...)] and the sanitizer's failure print. *)
Definition log_error (msg : string) (w : World) : World :=
  {| files := files w; trace := trace w; log := log w ++ [msg];
     ticks := ticks w |}.

(** HTTP replies of the session endpoints. *)
Inductive Reply : Type :=
| ErrorReply (code : Z) (error : string)
| PausedReply (code : Z) (message : string)
| GenerateReply (response : option string) (message : string)
    (completed : bool) (progress : option (nat * option Z))
| MessageReply (code : Z) (message : string)
| SanitizeReply (original_length sanitized_length : nat) (session : Session)
| CreatedReply (code : Z) (sid : string) (initial_content : string).

(** What a helper hands back to its caller: a reply, or a bare Python value
    ([True], [False], [None]). *)
Inductive Ret : Type :=
| Resp (r : Reply)
| PyTrue
| PyFalse
| PyNone.

Section Engine.

Variable env : Env.

(** Reading the clock ([pathlib.Path().stat().st_mtime],
    [datetime.datetime.now().timestamp()]). *)
Definition now (w : World) : Timestamp * World :=
  (clock env (ticks w),
   {| files := files w; trace := trace w; log := log w;
      ticks := S (ticks w) |}).

(** [client.chat.completions.create(...)]: one attempt, recorded. *)
Definition client_create (rq : Request) (w : World) : Outcome * World :=
  (provider env (length (trace w)) rq,
   {| files := files w; trace := trace w ++ [rq]; log := log w;
      ticks := ticks w |}).

(** [core.chat_call]: [None] stands for the [ModelError] it raises when the
    call fails or the content is [None]; otherwise the stripped text. *)
Definition chat_call (c : Participant) (history : list (string * string))
    (user_msg : string) (w : World) : option string * World :=
  let '(o, w1) := client_create
      {| rq_agent := CharacterAgent c; rq_history := history;
         rq_user_msg := user_msg |} w in
  match o with
  | Raises => (None, w1)
  | Content None => (None, w1)
  | Content (Some result) => (Some (strip result), w1)
  end.

(** ** Sanitizer *)

Definition sanitizer_system : string :=
  "You are a careful, low-temperature text sanitizer. Only remove problems, do not rewrite.".

Definition sanitize_prompt (story_content : string) : string :=
  join nl [
    "You are a careful text sanitizer. Your job is to clean the following story by:";
    "- Removing repetitive loops where the model repeats itself";
    "- Removing meta-commentary or breaking character";
    "- Removing nonsensical gibberish or illogical parts";
    "- Removing excessive repetition of phrases or ideas";
    "- DO NOT change the actual story content, plot, or creative elements";
    "- DO NOT rewrite or improve the story - only remove problematic parts";
    "- Preserve the original creative voice and style";
    "- Keep the story coherent and flowing naturally";
    "";
    "Return only the cleaned story with problems removed.";
    "";
    "===";
    story_content;
    "==="].

(** The request of [sanitize_story] for a model id (sampling parameters are
    configuration handed to the provider and are not modelled). *)
Definition sanitize_request (model story_content : string) : Request :=
  {| rq_agent := ModelAgent model;
     rq_history := [("system", sanitizer_system)];
     rq_user_msg := sanitize_prompt story_content |}.

Definition sanitize_story (story_content preset_id : string) (w : World)
    : string * World :=
  match preset_files env !! preset_id with
  | Some Unreadable =>
      (* json.load raises inside the try block *)
      (story_content, log_error "Sanitization failed" w)
  | found =>
      let model :=
        match found with
        | Some (Preset (Some m)) => m
        | _ => "default-model"
        end in
      let '(o, w1) := client_create (sanitize_request model story_content) w in
      match o with
      | Raises => (story_content, log_error "Sanitization failed" w1)
      | Content None => (story_content, w1)
      | Content (Some result) =>
          ((if truthy result then strip result else story_content), w1)
      end
  end.

Definition sanitize_session_story (session_id : string)
    (preset_id : option string) (w : World) : Reply * World :=
  let preset := default "sanitizer-balanced" preset_id in
  match files w !! session_id with
  | None => (ErrorReply 404 "Session not found", w)
  | Some session_data =>
      if negb (String.eqb (s_type session_data) "story") then
        (ErrorReply 400 "Sanitization only available for story sessions", w)
      else
        match ai_messages (messages session_data) with
        | [] => (ErrorReply 400 "No story content to sanitize", w)
        | ais =>
            let story_parts := map msg_content ais in
            let original_story := join (nl +:+ nl) story_parts in
            let '(sanitized_story, w1) :=
              sanitize_story original_story preset w in
            let '(ts, w2) := now w1 in
            let session_data' :=
              set_messages
                [ {| msg_type := "ai"; msg_character := None;
                     msg_content := sanitized_story; msg_timestamp := ts;
                     msg_sanitized := Some true |} ] session_data in
            (SanitizeReply (String.length original_story)
               (String.length sanitized_story) session_data',
             write_session session_id session_data' w2)
        end
  end.

(** ** Pause and resume *)

Definition pause_session (session_id : string) (w : World) : Reply * World :=
  match files w !! session_id with
  | None => (ErrorReply 404 "Session not found", w)
  | Some session_data =>
      let '(ts, w1) := now w in
      (MessageReply 200 "Session paused successfully",
       write_session session_id
         (set_pause_markers (Some true) (Some ts) session_data) w1)
  end.

Definition resume_session (session_id : string) (w : World) : Reply * World :=
  match files w !! session_id with
  | None => (ErrorReply 404 "Session not found", w)
  | Some session_data =>
      (MessageReply 200 "Session resumed successfully",
       write_session session_id
         (set_pause_markers None None session_data) w)
  end.

(** ** Single-turn generators *)

Definition ai_message (content : string) (ts : Timestamp) : Message :=
  {| msg_type := "ai"; msg_character := None; msg_content := content;
     msg_timestamp := ts; msg_sanitized := None |}.

Definition user_message (content : string) (ts : Timestamp) : Message :=
  {| msg_type := "user"; msg_character := None; msg_content := content;
     msg_timestamp := ts; msg_sanitized := None |}.

Definition system_message (content : string) (ts : Timestamp) : Message :=
  {| msg_type := "system"; msg_character := None; msg_content := content;
     msg_timestamp := ts; msg_sanitized := None |}.

(** [[x] if cond else []], for the conditional [append]s of the prompts. *)
Definition when (cond : bool) (line : string) : list string :=
  if cond then [line] else [].

Definition personality_lines (c : Participant) : list string :=
  match lore_personality c with
  | Some p => when (truthy p) ("Your personality: " +:+ p)
  | None => []
  end.

Definition story_opening_prompt (session_data : Session) : string :=
  join nl
    (["Generate an engaging story opening with the following elements:"]
     ++ when (truthy (setting session_data))
          ("Setting: " +:+ setting session_data)
     ++ when (truthy (scenario session_data))
          ("Scenario: " +:+ scenario session_data)
     ++ ["Characters:"]
     ++ map (fun char =>
               "- " +:+ c_name char +:+ ": "
               +:+ default "No description" (lore_description char))
          (characters session_data)
     ++ [nl +:+ "Write a compelling opening that introduces the setting and sets up the scenario. Keep it under 300 words."]).

(** [None] is the Python [None] (no characters, or the call raised). *)
Definition generate_story_opening (session_data : Session) (w : World)
    : option string * World :=
  match characters session_data with
  | [] => (None, w)
  | first_char :: _ =>
      match chat_call first_char [] (story_opening_prompt session_data) w with
      | (Some response, w1) => (Some (strip response), w1)
      | (None, w1) => (None, log_error "Story opening generation error" w1)
      end
  end.

Definition story_continuation_fallback : string :=
  "I'm having trouble generating the story continuation. Please try again.".

Definition story_user_msg (session_data : Session) (user_input : string)
    : string :=
  let story_parts := map msg_content (ai_messages (messages session_data)) in
  match story_parts with
  | [] => "Story idea: " +:+ scenario session_data
  | _ =>
      let story_so_far := join (nl +:+ nl) story_parts in
      if truthy user_input then
        "Story so far:" +:+ nl +:+ story_so_far +:+ nl +:+ nl
        +:+ "User direction: " +:+ user_input +:+ nl +:+ nl
        +:+ "Continue the story."
      else
        "Story so far:" +:+ nl +:+ story_so_far +:+ nl +:+ nl
        +:+ "Continue the story."
  end.

(** [len(messages) % len(characters)]; [None] is the [ZeroDivisionError]. *)
Definition story_char_index (session_data : Session) : option nat :=
  match length (characters session_data) with
  | O => None
  | n => Some (length (messages session_data) mod n)%nat
  end.

Definition generate_story_continuation (session_data : Session)
    (user_input : string) (w : World) : string * World :=
  let user_msg := story_user_msg session_data user_input in
  match story_char_index session_data with
  | None =>
      (story_continuation_fallback, log_error "Story continuation error" w)
  | Some char_index =>
      match characters session_data !! char_index with
      | None =>
          (story_continuation_fallback,
           log_error "Story continuation error" w)
      | Some character =>
          match chat_call character [] user_msg w with
          | (Some response, w1) => (strip response, w1)
          | (None, w1) =>
              (story_continuation_fallback,
               log_error "Story continuation error" w1)
          end
      end
  end.

Definition chat_response_fallback : string :=
  "I'm having trouble responding right now. Please try again.".

(** [len([m for m in messages if m['type'] == 'ai']) % len(characters)] *)
Definition chat_char_index (session_data : Session) : option nat :=
  match length (characters session_data) with
  | O => None
  | n => Some (ai_count (messages session_data) mod n)%nat
  end.

(** [messages[-6:]] *)
Definition last6 {A : Type} (l : list A) : list A :=
  skipn (length l - 6)%nat l.

Definition history_entry (msg : Message) : list (string * string) :=
  if String.eqb (msg_type msg) "user" then [("user", msg_content msg)]
  else if String.eqb (msg_type msg) "ai" then
    [("assistant", msg_content msg)]
  else [].

Definition chat_history (ms : list Message) : list (string * string) :=
  flat_map history_entry (last6 ms).

Definition chat_response_prompt (session_data : Session)
    (responding_char : Participant) (user_input : string) : string :=
  join nl
    (when (truthy (scenario session_data))
       ("Scenario: " +:+ scenario session_data)
     ++ ["You are " +:+ c_name responding_char +:+ " in a conversation."]
     ++ personality_lines responding_char
     ++ when (truthy user_input) ("User: " +:+ user_input)
     ++ [nl +:+ "Respond as " +:+ c_name responding_char
         +:+ " in character:"]).

Definition generate_chat_response (session_data : Session)
    (user_input : string) (w : World) : string * World :=
  match chat_char_index session_data with
  | None => (chat_response_fallback, log_error "Chat response error" w)
  | Some char_index =>
      match characters session_data !! char_index with
      | None => (chat_response_fallback, log_error "Chat response error" w)
      | Some responding_char =>
          let history := chat_history (messages session_data) in
          let prompt :=
            chat_response_prompt session_data responding_char user_input in
          match chat_call responding_char history prompt w with
          | (Some response, w1) => (strip response, w1)
          | (None, w1) =>
              (chat_response_fallback, log_error "Chat response error" w1)
          end
      end
  end.

Definition chat_opening_prompt (session_data : Session)
    (first_char : Participant) : string :=
  join nl
    (["You are " +:+ c_name first_char +:+ " starting a conversation."]
     ++ when (truthy (scenario session_data))
          ("Topic/Scenario: " +:+ scenario session_data)
     ++ when (truthy (setting session_data))
          ("Setting: " +:+ setting session_data)
     ++ personality_lines first_char
     ++ ["Start the conversation with a greeting or opening statement (1-2 sentences):"]).

Definition generate_chat_opening (session_data : Session) (w : World)
    : option string * World :=
  match characters session_data with
  | [] => (None, w)
  | first_char :: _ =>
      match chat_call first_char []
              (chat_opening_prompt session_data first_char) w with
      | (Some response, w1) => (Some (strip response), w1)
      | (None, w1) => (None, log_error "Chat opening generation error" w1)
      end
  end.

(** ** Auto-run: the complete story *)

(** The opening of [generate_complete_story]: on a non-empty opening the
    message list is replaced by that single message and the document saved
    ([mark_active] sets status ['active'] first, as the unlimited mode
    does). *)
Definition story_opening_step (mark_active : bool) (session_data : Session)
    (session_file : string) (w : World) : Session * World :=
  match generate_story_opening session_data w with
  | (Some opening, w1) =>
      if truthy opening then
        let '(ts, w2) := now w1 in
        let sd := set_messages [ai_message opening ts] session_data in
        let sd := if mark_active then set_status "active" sd else sd in
        (sd, write_session session_file sd w2)
      else (session_data, w1)
  | (None, w1) => (session_data, w1)
  end.

(** One pass of the [for part_num in range(1, max_parts)] body: reload the
    document, generate a continuation, append and save it if non-empty.
    [None] is the exception of [open] on a missing file. *)
Definition story_iteration (session_file : string) (w : World)
    : option Session * World :=
  match files w !! session_file with
  | None => (None, w)
  | Some session_data =>
      let '(response, w1) := generate_story_continuation session_data "" w in
      if truthy response then
        let '(ts, w2) := now w1 in
        let sd := append_message (ai_message response ts) session_data in
        (Some sd, write_session session_file sd w2)
      else (Some session_data, w1)
  end.

Fixpoint story_loop (n : nat) (session_file : string) (session_data : Session)
    (w : World) : option Session * World :=
  match n with
  | O => (Some session_data, w)
  | S n' =>
      match story_iteration session_file w with
      | (None, w1) => (None, w1)
      | (Some sd, w1) => story_loop n' session_file sd w1
      end
  end.

(** The tail of both auto-runs: status ['completed'], [is_completed] true,
    saved. *)
Definition mark_completed (session_data : Session) (session_file : string)
    (w : World) : Session * World :=
  let sd := set_is_completed (Some true) (set_status "completed" session_data) in
  (sd, write_session session_file sd w).

Definition generate_complete_story (session_data : Session)
    (session_file : string) (w : World) : Ret * World :=
  match jget_default (parts session_data) 4 with
  | Some max_parts =>
      if max_parts =? 999 then
        let '(_, w1) := story_opening_step true session_data session_file w in
        (PyTrue, w1)
      else
        let '(sd0, w1) :=
          story_opening_step false session_data session_file w in
        match story_loop (Z.to_nat (max_parts - 1)) session_file sd0 w1 with
        | (None, w2) =>
            (Resp (ErrorReply 500 "No such file or directory"),
             log_error "Complete story generation error" w2)
        | (Some sd1, w2) =>
            let '(sd2, w3) := mark_completed sd1 session_file w2 in
            let all_parts := map msg_content (ai_messages (messages sd2)) in
            let complete_story := join (nl +:+ nl) all_parts in
            (Resp (GenerateReply (Some complete_story)
                     ("Complete story generated ("
                      +:+ pretty (length all_parts) +:+ "/"
                      +:+ pretty max_parts +:+ " parts)")
                     true (Some (length all_parts, Some max_parts))),
             w3)
        end
  | None =>
      (* range(1, None) raises TypeError after the opening *)
      let '(_, w1) := story_opening_step false session_data session_file w in
      (Resp (ErrorReply 500 "'NoneType' object cannot be interpreted as an integer"),
       log_error "Complete story generation error" w1)
  end.

(** ** The generate endpoint *)

(** Result of the limit check at the top of [generate_session_content]. *)
Inductive LimitCheck : Type :=
| LimitReached (r : Reply)
| LimitTypeError
| Proceed.

Definition check_limit (session_data : Session) : LimitCheck :=
  let current_count := ai_count (messages session_data) in
  if String.eqb (s_type session_data) "chat" then
    match jget_default (turns session_data) 6 with
    | None => LimitTypeError
    | Some max_turns =>
        if max_turns <=? Z.of_nat current_count then
          LimitReached
            (GenerateReply None
               ("Chat session completed (" +:+ pretty current_count +:+ "/"
                +:+ pretty max_turns +:+ " turns)") true None)
        else Proceed
    end
  else
    match jget_default (parts session_data) 4 with
    | None => Proceed
    | Some max_parts =>
        if negb (max_parts =? 999) && (max_parts <=? Z.of_nat current_count)
        then
          LimitReached
            (GenerateReply None
               ("Story session completed (" +:+ pretty current_count +:+ "/"
                +:+ pretty max_parts +:+ " parts)") true None)
        else Proceed
    end.

(** [completed] after a turn of a regular session; [None] is a [TypeError]. *)
Definition completed_after (session_data : Session) : option bool :=
  let current_count := ai_count (messages session_data) in
  if String.eqb (s_type session_data) "chat" then
    match jget_default (turns session_data) 6 with
    | None => None
    | Some max_turns => Some (max_turns <=? Z.of_nat current_count)
    end
  else
    match jget_default (parts session_data) 4 with
    | None => Some false
    | Some max_parts =>
        Some (negb (max_parts =? 999) && (max_parts <=? Z.of_nat current_count))
    end.

Definition progress_max (session_data : Session) : option Z :=
  if String.eqb (s_type session_data) "chat" then
    jget_default (turns session_data) 6
  else
    match jget (parts session_data) with
    | None => None
    | Some p => if p =? 999 then None else jget_default (parts session_data) 4
    end.

(** Appending the user input (when given) and the ai response, then saving;
    nothing happens on an empty response. *)
Definition record_turn (session_data : Session) (session_file : string)
    (user_input response : string) (w : World) : Session * World :=
  if truthy response then
    let '(sd1, w1) :=
      if truthy user_input then
        let '(ts, w1) := now w in
        (append_message (user_message user_input ts) session_data, w1)
      else (session_data, w) in
    let '(ts, w2) := now w1 in
    let sd2 := append_message (ai_message response ts) sd1 in
    (sd2, write_session session_file sd2 w2)
  else (session_data, w).

Definition generate_session_content (session_id : string)
    (user_input : string) (w : World) : Ret * World :=
  match files w !! session_id with
  | None => (Resp (ErrorReply 404 "Session not found"), w)
  | Some session_data =>
      if is_paused session_data then
        (Resp (PausedReply 400
                 "Session is paused. Resume the session to continue generation."),
         w)
      else
        let is_quick_chat := jeq (turns session_data) 999 in
        match (if is_quick_chat then Proceed else check_limit session_data) with
        | LimitReached r => (Resp r, w)
        | LimitTypeError =>
            (Resp (ErrorReply 500 "'>=' not supported between instances of 'int' and 'NoneType'"), w)
        | Proceed =>
            if String.eqb (s_type session_data) "story"
               && negb (truthy user_input)
            then generate_complete_story session_data session_id w
            else
              let '(response, w1) :=
                if String.eqb (s_type session_data) "story"
                then generate_story_continuation session_data user_input w
                else generate_chat_response session_data user_input w in
              let '(sd, w2) :=
                record_turn session_data session_id user_input response w1 in
              if is_quick_chat then
                (Resp (GenerateReply (Some response)
                         "Content generated successfully" false
                         (Some (ai_count (messages sd), None))), w2)
              else
                match completed_after sd with
                | None =>
                    (Resp (ErrorReply 500 "'>=' not supported between instances of 'int' and 'NoneType'"), w2)
                | Some completed =>
                    let '(sd', w3) :=
                      if completed then mark_completed sd session_id w2
                      else (sd, w2) in
                    (Resp (GenerateReply (Some response)
                             "Content generated successfully" completed
                             (Some (ai_count (messages sd), progress_max sd'))),
                     w3)
                end
        end
  end.

(** ** Auto-run: the multi-character conversation *)

Definition multi_prompt (session_data : Session) (current_char : Participant)
    (conversation_history : list (string * string)) (turn : nat) : string :=
  let other_chars :=
    map c_name
      (List.filter
         (fun c => negb (String.eqb (c_name c) (c_name current_char)))
         (characters session_data)) in
  join nl
    (["You are " +:+ c_name current_char +:+ " in a conversation."]
     ++ when (truthy (scenario session_data))
          ("Topic/Scenario: " +:+ scenario session_data)
     ++ when (truthy (setting session_data))
          ("Setting: " +:+ setting session_data)
     ++ personality_lines current_char
     ++ match other_chars with
        | [] => []
        | _ => ["You are talking with: " +:+ join ", " other_chars]
        end
     ++ match conversation_history with
        | [] => []
        | _ =>
            (nl +:+ "Conversation so far:")
            :: map (fun msg => fst msg +:+ ": " +:+ snd msg)
                 (last6 conversation_history)
        end
     ++ [if (turn =? 0)%nat
         then nl +:+ "Start the conversation with a greeting or opening statement:"
         else nl +:+ "Respond naturally to continue the conversation:"]).

(** One pass of the [for turn in range(max_turns)] body.  The document is the
    one the function was given, never reloaded.  [None] is the exception
    that leaves the loop ([ModelError] of [chat_call]). *)
Definition multi_turn (session_file : string) (turn : nat)
    (session_data : Session) (conversation_history : list (string * string))
    (w : World) : option (Session * list (string * string)) * World :=
  match characters session_data
        !! (turn mod length (characters session_data))%nat with
  | None => (None, w)
  | Some current_char =>
      let prompt :=
        multi_prompt session_data current_char conversation_history turn in
      match chat_call current_char [] prompt w with
      | (None, w1) => (None, w1)
      | (Some response, w1) =>
          if truthy response then
            let cleaned_response := strip response in
            let history :=
              conversation_history ++ [(c_name current_char, cleaned_response)] in
            let '(ts, w2) := now w1 in
            let sd :=
              append_message
                {| msg_type := "ai";
                   msg_character := Some (c_name current_char);
                   msg_content := cleaned_response; msg_timestamp := ts;
                   msg_sanitized := None |} session_data in
            (Some (sd, history), write_session session_file sd w2)
          else (Some (session_data, conversation_history), w1)
      end
  end.

Fixpoint multi_loop (session_file : string) (todo : list nat)
    (session_data : Session) (conversation_history : list (string * string))
    (w : World) : option Session * World :=
  match todo with
  | [] => (Some session_data, w)
  | turn :: todo' =>
      match multi_turn session_file turn session_data conversation_history w
      with
      | (None, w1) => (None, w1)
      | (Some (sd, history), w1) => multi_loop session_file todo' sd history w1
      end
  end.

Definition generate_multi_character_conversation (session_data : Session)
    (session_file : string) (w : World) : Ret * World :=
  if (length (characters session_data) <? 2)%nat then (PyNone, w)
  else
    match jget_default (turns session_data) 6 with
    | None =>
        (* range(None) raises TypeError *)
        (PyFalse, log_error "Multi-character conversation generation error" w)
    | Some max_turns =>
        match multi_loop session_file (seq 0 (Z.to_nat max_turns))
                session_data [] w with
        | (None, w1) =>
            (PyFalse,
             log_error "Multi-character conversation generation error" w1)
        | (Some sd, w1) =>
            let '(_, w2) := mark_completed sd session_file w1 in
            (PyTrue, w2)
        end
    end.

(** ** Session creation *)

Record CharInfo : Type := {
  ci_id : string;
  ci_name : string;
  ci_preset : option string
}.

(** The JSON body of a create request; [None] is a missing key. *)
Record CreateRequest : Type := {
  req_characters : option (list CharInfo);
  req_type : option string;
  req_chatMode : option string;
  req_scenario : option string;
  req_setting : option string;
  req_turns : JInt;
  req_parts : JInt
}.

(** The background thread started by [create_session].  The thread shares
    the session dictionary with the handler, so the task carries the
    document as the handler leaves it. *)
Inductive Task : Type :=
| StoryTask (session_data : Session) (session_file : string)
| MultiTask (session_data : Session) (session_file : string).

(** [data.get(key, d)] stored in the new document. *)
Definition stored_limit (f : JInt) (d : Z) : JInt :=
  match jget_default f d with
  | Some z => Int z
  | None => Null
  end.

(** The loop over [data['characters']]: entries without a character file are
    skipped (a model preset changes model and sampling only). *)
Definition load_session_characters (infos : list CharInfo)
    : list Participant :=
  flat_map
    (fun char_info =>
       match character_files env !! ci_id char_info with
       | None => []
       | Some char_data =>
           [ {| c_id := ci_id char_info; c_name := ci_name char_info;
                lore_description := lore_description char_data;
                lore_personality := lore_personality char_data |} ]
       end) infos.

Definition create_session (data : CreateRequest) (w : World)
    : Reply * World * option Task :=
  match req_characters data with
  | None | Some [] => (ErrorReply 400 "Characters are required", w, None)
  | Some infos =>
      let session_type := default "chat" (req_type data) in
      let chat_mode := default "single" (req_chatMode data) in
      let '(_, w0) := now w in
      let session_id := session_ids env (ticks w) in
      let session_characters := load_session_characters infos in
      let names := join ", " (map c_name session_characters) in
      let is_chat := String.eqb session_type "chat" in
      let is_multi := String.eqb chat_mode "multi" in
      let new_title :=
        if is_chat && is_multi then "Multi-Character Chat - " +:+ names
        else if is_chat then "Chat Session - " +:+ names
        else "Story Session - " +:+ names in
      let '(created, w1) := now w0 in
      let session_data :=
        {| s_id := session_id; s_type := session_type;
           chatMode := if is_chat then Some chat_mode else None;
           title := new_title; characters := session_characters;
           scenario := default "" (req_scenario data);
           setting := default "" (req_setting data);
           turns := if is_chat then stored_limit (req_turns data) 6 else Null;
           parts := if String.eqb session_type "story"
                    then stored_limit (req_parts data) 4 else Null;
           created_at := created; status := "active"; messages := [];
           paused := None; paused_at := None; is_completed := None |} in
      let w2 := write_session session_id session_data w1 in
      if String.eqb session_type "story" then
        (CreatedReply 201 session_id "Story generation started automatically",
         w2, Some (StoryTask session_data session_id))
      else if is_multi then
        let initial_content :=
          "Multi-character conversation started between " +:+ names in
        let '(ts, w3) := now w2 in
        let sd := append_message (system_message initial_content ts)
                    session_data in
        (CreatedReply 201 session_id initial_content,
         write_session session_id sd w3,
         Some (MultiTask sd session_id))
      else
        let '(opening, w3) := generate_chat_opening session_data w2 in
        let initial_content :=
          match opening with
          | Some o => if truthy o then Some o else None
          | None => None
          end in
        let '(sd, w4) :=
          match initial_content with
          | Some o =>
              let '(ts, w4) := now w3 in
              (append_message (system_message o ts) session_data, w4)
          | None => (session_data, w3)
          end in
        (CreatedReply 201 session_id (default "Chat session created" initial_content),
         write_session session_id sd w4, None)
  end.

(** Running the background thread: the return value is dropped. *)
Definition run_task (t : Task) (w : World) : World :=
  match t with
  | StoryTask session_data session_file =>
      snd (generate_complete_story session_data session_file w)
  | MultiTask session_data session_file =>
      snd (generate_multi_character_conversation session_data session_file w)
  end.

End Engine.

(** ** What a reply reports *)

(** The ['completed'] key of a reply; [None] when the reply has none. *)
Definition reply_completed (r : Ret) : option bool :=
  match r with
  | Resp (GenerateReply _ _ completed _) => Some completed
  | _ => None
  end.

(** The ['progress'] object of a reply: current count and maximum ([None]
    inside is JSON null). *)
Definition reply_progress (r : Ret) : option (nat * option Z) :=
  match r with
  | Resp (GenerateReply _ _ _ progress) => progress
  | _ => None
  end.

(** The limit a session is held to: turns for a chat, parts otherwise, with
    the defaults of the [get] calls. *)
Definition session_limit (s : Session) : option Z :=
  if String.eqb (s_type s) "chat" then jget_default (turns s) 6
  else jget_default (parts s) 4.

(** Two documents that agree on every field except the pause markers. *)
Definition same_but_pause (s s' : Session) : Prop :=
  s_id s' = s_id s /\ s_type s' = s_type s /\ chatMode s' = chatMode s /\
  title s' = title s /\ characters s' = characters s /\
  scenario s' = scenario s /\ setting s' = setting s /\
  turns s' = turns s /\ parts s' = parts s /\
  created_at s' = created_at s /\ status s' = status s /\
  messages s' = messages s /\ is_completed s' = is_completed s.

(** Two documents with the same type, limits and completion state. *)
Definition same_policy (s s' : Session) : Prop :=
  s_type s' = s_type s /\ turns s' = turns s /\ parts s' = parts s /\
  status s' = status s /\ is_completed s' = is_completed s.

(** ** Fixtures for the concrete runs *)

Module Fixtures.

Definition nova : Participant :=
  {| c_id := "nova"; c_name := "Nova"; lore_description := None;
     lore_personality := None |}.

Definition rex : Participant :=
  {| c_id := "rex"; c_name := "Rex"; lore_description := None;
     lore_personality := None |}.

(** A provider that answers every call with the same outcome. *)
Definition env_const (o : Outcome) : Env :=
  {| provider := fun _ _ => o; clock := fun n => Z.of_nat n;
     preset_files := ∅;
     character_files := <["nova" := nova]> (<["rex" := rex]> ∅);
     session_ids := fun _ => "s1" |}.

Definition env_ok : Env := env_const (Content (Some "Once upon a time.")).
Definition env_down : Env := env_const Raises.

(** A provider whose second call (index 1) raises. *)
Definition env_flaky : Env :=
  {| provider := fun n _ =>
       if (n =? 1)%nat then Raises else Content (Some "Once upon a time.");
     clock := fun n => Z.of_nat n; preset_files := ∅;
     character_files := <["nova" := nova]> ∅;
     session_ids := fun _ => "s1" |}.

Definition mk_session (ty : string) (cs : list Participant) (t p : JInt)
    (ms : list Message) (pz : option bool) : Session :=
  {| s_id := "s1"; s_type := ty; chatMode := None; title := "t";
     characters := cs; scenario := "A quiet harbour"; setting := "";
     turns := t; parts := p; created_at := 0; status := "active";
     messages := ms; paused := pz; paused_at := None;
     is_completed := None |}.

Definition world_of (s : Session) : World :=
  {| files := <["s1" := s]> ∅; trace := []; log := []; ticks := 0 |}.

Definition empty_world : World :=
  {| files := ∅; trace := []; log := []; ticks := 0 |}.

Definition story_two_parts : Session :=
  mk_session "story" [nova] Null (Int 2)
    [ai_message "Part one." 0; user_message "Go on" 1;
     ai_message "Part two." 2] None.

Definition chat_two_of_two (pz : option bool) : Session :=
  mk_session "chat" [nova] (Int 2) Null
    [user_message "Hi" 0; ai_message "Hello." 1;
     user_message "And?" 2; ai_message "Bye." 3] pz.

Definition chat_one_of_two : Session :=
  mk_session "chat" [nova] (Int 2) Null
    [user_message "Hi" 0; ai_message "Hello." 1] None.

Definition quick_chat (pz : option bool) : Session :=
  mk_session "chat" [nova] (Int 999) Null
    [user_message "Hi" 0; ai_message "Hello." 1] pz.

Definition story_unlimited : Session :=
  mk_session "story" [nova] Null (Int 999) [ai_message "Part one." 0] None.

Definition story_of_three : Session :=
  mk_session "story" [nova] Null (Int 3) [] None.

Definition story_of_two : Session :=
  mk_session "story" [nova] Null (Int 2) [] None.

Definition multi_chat : Session :=
  mk_session "chat" [nova; rex] (Int 3) Null
    [system_message "Multi-character conversation started between Nova, Rex" 0]
    None.

(** An unlimited story steered once by the user: the opening, the user's
    direction and the part it produced; two participants. *)
Definition story_steered : Session :=
  mk_session "story" [nova; rex] Null (Int 999)
    [ai_message "Part one." 0; user_message "A twist" 1;
     ai_message "Part two." 2] None.

Definition lone_multi_request : CreateRequest :=
  {| req_characters :=
       Some [ {| ci_id := "nova"; ci_name := "Nova"; ci_preset := None |} ];
     req_type := Some "chat"; req_chatMode := Some "multi";
     req_scenario := None; req_setting := None;
     req_turns := Absent; req_parts := Absent |}.

(** A story document that also carries the quick-chat marker in turns. *)
Definition story_marked_quick : Session :=
  mk_session "story" [nova] (Int 999) (Int 2)
    [ai_message "Part one." 0; ai_message "Part two." 1] None.

End Fixtures.


(** ** Further endpoints of the session store *)

(** [get_session]: the stored document, or the 404 reply. *)
Definition get_session (session_id : string) (w : World) : Session + Reply :=
  match files w !! session_id with
  | Some session_data => inl session_data
  | None => inr (ErrorReply 404 "Session not found")
  end.

(** [delete_session]: [os.remove] on the session file when it exists. *)
Definition delete_session (session_id : string) (w : World) : Reply * World :=
  match files w !! session_id with
  | Some _ =>
      (MessageReply 200 "Session deleted successfully",
       set_files (delete session_id (files w)) w)
  | None => (ErrorReply 404 "Session not found", w)
  end.

(** The body of the loop of [migrate_existing_sessions]: a document with
    status ['completed'] and no [is_completed] key gains the key. *)
Definition migrate_session (session_data : Session) : Session :=
  if String.eqb (status session_data) "completed"
     && negb (bool_decide (is_Some (is_completed session_data)))
  then set_is_completed (Some true) session_data
  else session_data.

(** [migrate_existing_sessions], over every session file. *)
Definition migrate_existing_sessions (w : World) : World :=
  set_files (migrate_session <$> files w) w.

(** ** File names *)

Definition dquote : ascii := ascii_of_nat 34.

(** The character class of the first substitution of [sanitize_filename]. *)
Definition is_invalid_char (c : ascii) : bool :=
  existsb (Ascii.eqb c)
    ["<"; ">"; ":"; dquote; "/"; "\"; "|"; "?"; "*"]%char.

Definition is_underscore (c : ascii) : bool := Ascii.eqb c "_"%char.

Fixpoint map_chars (f : ascii -> ascii) (s : string) : string :=
  match s with
  | EmptyString => EmptyString
  | String c s' => String (f c) (map_chars f s')
  end.

(** [re.sub(r'_+', '_', s)]: every run of underscores becomes one. *)
Fixpoint squeeze_underscores (s : string) : string :=
  match s with
  | EmptyString => EmptyString
  | String c s' =>
      match s' with
      | String c' _ =>
          if is_underscore c && is_underscore c' then squeeze_underscores s'
          else String c (squeeze_underscores s')
      | EmptyString => String c EmptyString
      end
  end.

Fixpoint lstrip_underscores (s : string) : string :=
  match s with
  | EmptyString => EmptyString
  | String c s' => if is_underscore c then lstrip_underscores s' else s
  end.

Fixpoint rstrip_underscores (s : string) : string :=
  match s with
  | EmptyString => EmptyString
  | String c s' =>
      let r := rstrip_underscores s' in
      if is_underscore c && negb (truthy r) then EmptyString else String c r
  end.

(** [s.strip('_')] *)
Definition strip_underscores (s : string) : string :=
  rstrip_underscores (lstrip_underscores s).

Definition sanitize_filename (filename : string) : string :=
  let safe_name :=
    map_chars (fun c => if is_invalid_char c then "_"%char else c) filename in
  let safe_name :=
    map_chars (fun c => if Ascii.eqb c " "%char then "_"%char else c)
      safe_name in
  let safe_name := squeeze_underscores safe_name in
  let safe_name := strip_underscores safe_name in
  if truthy safe_name then safe_name else "character".

(** ** Session ratings *)

(** An entry of the ['sessions'] object of the content ratings file. *)
Record SessionRating : Type := {
  r_rating : Z;
  r_content_rating : string;
  r_feedback : string;
  r_tags : list string;
  r_rated_at : Timestamp;
  r_rated_by : string;
  r_id : string;
  r_title : string;
  r_type : string;
  r_preview : string;
  r_characters : list string
}.

(** The JSON body of a rating request, with an integer star count. *)
Record RateRequest : Type := {
  rr_rating : JInt;
  rr_content_rating : option string;
  rr_feedback : option string;
  rr_tags : option (list string)
}.

Inductive RateReply : Type :=
| RateError (code : Z) (error : string)
| Rated (rating : SessionRating).

Definition valid_content_ratings : list string :=
  ["G"; "PG"; "PG-13"; "R"; "NC-17"].

(** [messages[0].get('content', '')[:200]], or [''] without messages. *)
Definition rating_preview (ms : list Message) : string :=
  match ms with
  | [] => ""
  | m :: _ => String.substring 0 200 (msg_content m)
  end.

(** [rate_session] on the ['sessions'] object of a well-formed ratings
    file; the session document is looked up for title, type and preview. *)
Definition rate_session (env : Env) (session_id : string) (data : RateRequest)
    (ratings : gmap string SessionRating) (w : World)
    : RateReply * gmap string SessionRating * World :=
  match jget (rr_rating data), rr_content_rating data with
  | Some rating, Some content_rating =>
      if (rating =? 0) || negb (truthy content_rating) then
        (RateError 400 "Rating and content_rating are required", ratings, w)
      else if negb ((1 <=? rating) && (rating <=? 5)) then
        (RateError 400 "Rating must be between 1 and 5", ratings, w)
      else if negb (existsb (String.eqb content_rating) valid_content_ratings)
      then (RateError 400
              "Content rating must be one of: ['G', 'PG', 'PG-13', 'R', 'NC-17']",
            ratings, w)
      else
        let session_data := files w !! session_id in
        let '(ts, w1) := now env w in
        let entry :=
          {| r_rating := rating; r_content_rating := content_rating;
             r_feedback := default "" (rr_feedback data);
             r_tags := default [] (rr_tags data);
             r_rated_at := ts; r_rated_by := "user"; r_id := session_id;
             r_title :=
               match session_data with
               | Some s => title s
               | None => "Session " +:+ session_id
               end;
             r_type :=
               match session_data with
               | Some s => s_type s
               | None => "unknown"
               end;
             r_preview :=
               match session_data with
               | Some s => rating_preview (messages s)
               | None => ""
               end;
             r_characters :=
               match session_data with
               | Some s => map c_name (characters s)
               | None => []
               end |} in
        (Rated entry, <[session_id := entry]> ratings, w1)
  | _, _ =>
      (RateError 400 "Rating and content_rating are required", ratings, w)
  end.

(** [get_session_rating]: the stored entry, or the empty object. *)
Definition get_session_rating (session_id : string)
    (ratings : gmap string SessionRating) : option SessionRating :=
  ratings !! session_id.

(** ** A provider that answers *)

(** Every call returns text that is not blank. *)
Definition answers (env : Env) : Prop :=
  forall n rq, exists text,
    provider env n rq = Content (Some text) /\ truthy (strip text) = true.

(** The fallback sentence of the single-turn generator a session uses. *)
Definition turn_fallback (s : Session) : string :=
  if String.eqb (s_type s) "story" then story_continuation_fallback
  else chat_response_fallback.


(** A string that is empty or starts with a non-space character. *)
Definition clean_head (s : string) : Prop :=
  match s with
  | EmptyString => True
  | String c _ => is_space c = false
  end.


(** The provider call with index [i] returns text that is not blank. *)
Definition answers_at (env : Env) (i : nat) : Prop :=
  forall rq, exists text,
    provider env i rq = Content (Some text) /\ truthy (strip text) = true.

(** The provider call with index [i] raises. *)
Definition raises_at (env : Env) (i : nat) : Prop :=
  forall rq, provider env i rq = Raises.


(** The ['response'] key of a reply; [None] when absent or null. *)
Definition reply_response (r : Ret) : option string :=
  match r with
  | Resp (GenerateReply response _ _ _) => response
  | _ => None
  end.

(** The messages a recorded turn adds: the user input when there is one,
    then the ai response. *)
Definition turn_messages (user_input response : string)
    (t_user t_ai : Timestamp) : list Message :=
  (if truthy user_input then [user_message user_input t_user] else [])
  ++ [ai_message response t_ai].


(** ** Clean file names *)

Fixpoint all_chars (p : ascii -> bool) (s : string) : bool :=
  match s with
  | EmptyString => true
  | String c s' => p c && all_chars p s'
  end.

(** Neither in the invalid class nor a space. *)
Definition safe_char (c : ascii) : bool :=
  negb (is_invalid_char c) && negb (Ascii.eqb c " "%char).

Fixpoint no_double_underscore (s : string) : bool :=
  match s with
  | EmptyString => true
  | String c s' =>
      match s' with
      | String c' _ =>
          negb (is_underscore c && is_underscore c')
          && no_double_underscore s'
      | EmptyString => true
      end
  end.

Definition head_not_underscore (s : string) : bool :=
  match s with
  | EmptyString => true
  | String c _ => negb (is_underscore c)
  end.

Fixpoint last_not_underscore (s : string) : bool :=
  match s with
  | EmptyString => true
  | String c s' =>
      match s' with
      | EmptyString => negb (is_underscore c)
      | String _ _ => last_not_underscore s'
      end
  end.

(** A non-empty name of safe characters, without a run of underscores and
    without an underscore at either end. *)
Definition clean_name (s : string) : bool :=
  truthy s && all_chars safe_char s && no_double_underscore s
  && head_not_underscore s && last_not_underscore s.


(** ** Quick chat: choosing what to answer *)

(** The backwards search of [quick_chat_respond] over the request's
    messages (role and content): the index of the last message whose role is
    ['user']. *)
Fixpoint last_user_index (messages : list (string * string)) : option nat :=
  match messages with
  | [] => None
  | m :: rest =>
      match last_user_index rest with
      | Some i => Some (S i)
      | None => if String.eqb (fst m) "user" then Some O else None
      end
  end.

(** The conversation history and current message handed to [chat_call];
    [None] is the 400 reply ['No user message found']. *)
Definition quick_chat_select (messages : list (string * string))
    : option (list (string * string) * string) :=
  match last_user_index messages with
  | None => None
  | Some i =>
      match messages !! i with
      | Some m =>
          if truthy (snd m) then Some (take i messages, snd m) else None
      | None => None
      end
  end.


Module MoreFixtures.

Import Fixtures.

Definition nova_info : CharInfo :=
  {| ci_id := "nova"; ci_name := "Nova"; ci_preset := None |}.


(** Scenario: a story of three parts with Nova. *)
Definition story_request : CreateRequest :=
  {| req_characters := Some [nova_info];
     req_type := Some "story"; req_chatMode := None;
     req_scenario := Some "A quiet harbour"; req_setting := None;
     req_turns := Absent; req_parts := Int 3 |}.


End MoreFixtures.


(** * Properties *)

Import Fixtures.

(** ** Shared facts *)

Lemma write_session_lookup sid s w :
  files (write_session sid s w) !! sid = Some s.
Proof. unfold write_session; simpl. apply lookup_insert_eq. Qed.

Lemma write_session_other sid sid' s w :
  sid <> sid' -> files (write_session sid s w) !! sid' = files w !! sid'.
Proof. intros Hne. unfold write_session; simpl. by apply lookup_insert_ne. Qed.

Lemma ai_count_app ms ms' : ai_count (ms ++ ms') = (ai_count ms + ai_count ms')%nat.
Proof. unfold ai_count, ai_messages. by rewrite List.filter_app, length_app. Qed.

Lemma sanitize_story_files env text preset w :
  files (snd (sanitize_story env text preset w)) = files w.
Proof.
  unfold sanitize_story.
  destruct (preset_files env !! preset) as [[|m]|]; simpl; try reflexivity;
    match goal with |- context [provider ?e ?n ?rq] =>
      destruct (provider e n rq) as [|[r|]] end; reflexivity.
Qed.

(** ** Sanitizer *)

(** What one run of [sanitize_story] does to the trace, and what it returns
    when the call it made raised. *)
Lemma sanitize_story_attempt env text preset w :
  let R := sanitize_story env text preset w in
  (trace (snd R) = trace w /\ fst R = text) \/
  (exists rq, trace (snd R) = trace w ++ [rq] /\
     (provider env (length (trace w)) rq = Raises -> fst R = text)).
Proof.
  unfold sanitize_story.
  destruct (preset_files env !! preset) as [[|m]|]; simpl;
    [by left | |];
    match goal with |- context [provider ?e ?n ?rq] =>
      destruct (provider e n rq) as [|[r|]] eqn:Hp end; simpl;
    right; eexists; (split; [reflexivity|]); intros Hr;
    try reflexivity; congruence.
Qed.

(** C7.  [sanitize_story] makes at most one provider call, and when that
    call raises it returns its input text unchanged. *)
Theorem sanitize_story_failure_returns_input env text preset w :
  let R := sanitize_story env text preset w in
  (trace (snd R) = trace w \/ exists rq, trace (snd R) = trace w ++ [rq]) /\
  (forall rq, trace (snd R) = trace w ++ [rq] ->
     provider env (length (trace w)) rq = Raises -> fst R = text).
Proof.
  intros R.
  destruct (sanitize_story_attempt env text preset w)
    as [[Htr Hres] | (rq0 & Htr & Hres)]; fold R in Htr, Hres.
  - split; [by left|]. intros _ _ _. exact Hres.
  - split; [right; eauto|]. intros rq Htr' Hr.
    rewrite Htr in Htr'. apply app_inv_head in Htr'.
    injection Htr' as ->. auto.
Qed.

Lemma sanitize_story_failure_witness :
  fst (sanitize_story env_down "The end.  The end." "sanitizer-balanced"
         empty_world) = "The end.  The end.".
Proof.
  eapply (proj2 (sanitize_story_failure_returns_input env_down
                   "The end.  The end." "sanitizer-balanced" empty_world)).
  - reflexivity.
  - reflexivity.
Defined.

(** The endpoint on a story with ai messages: what is stored and replied. *)
Lemma sanitize_session_story_success env sid preset w s :
  files w !! sid = Some s ->
  s_type s = "story" ->
  ai_messages (messages s) <> [] ->
  let original :=
    join (nl +:+ nl) (map msg_content (ai_messages (messages s))) in
  let R := sanitize_story env original (default "sanitizer-balanced" preset) w in
  let m := {| msg_type := "ai"; msg_character := None;
              msg_content := fst R; msg_timestamp := clock env (ticks (snd R));
              msg_sanitized := Some true |} in
  sanitize_session_story env sid preset w =
    (SanitizeReply (String.length original) (String.length (fst R))
       (set_messages [m] s),
     write_session sid (set_messages [m] s) (snd (now env (snd R)))).
Proof.
  intros Hs Hty Hai original R.
  unfold sanitize_session_story. rewrite Hs, Hty.
  change (negb ("story" =? "story")%string) with false. cbv iota.
  subst R original.
  destruct (ai_messages (messages s)) as [|a ais] eqn:Ha; [done|].
  cbv beta iota zeta.
  destruct (sanitize_story env _ _ w) as [san w1]. reflexivity.
Qed.

(** C6.  Sanitizing an existing session: a story with at least one ai
    message ends with exactly one message, an ai message flagged sanitized;
    any other session is refused with status 400 and nothing changes. *)
Theorem sanitize_session_story_spec env sid preset w s :
  files w !! sid = Some s ->
  let R := sanitize_session_story env sid preset w in
  (s_type s = "story" /\ ai_messages (messages s) <> [] ->
     exists m s',
       files (snd R) !! sid = Some s' /\ messages s' = [m] /\
       ai_messages (messages s') = [m] /\ msg_type m = "ai" /\
       msg_sanitized m = Some true) /\
  (s_type s <> "story" \/ ai_messages (messages s) = [] ->
     snd R = w /\ exists err, fst R = ErrorReply 400 err).
Proof.
  intros Hs R. split.
  - intros [Hty Hai]. subst R.
    rewrite (sanitize_session_story_success env sid preset w s Hs Hty Hai).
    cbn [snd]. rewrite write_session_lookup.
    eexists _, _. split; [reflexivity|]. simpl. done.
  - intros Hbad. subst R. unfold sanitize_session_story. rewrite Hs.
    destruct (String.eqb (s_type s) "story") eqn:Hty; simpl.
    + apply String.eqb_eq in Hty. destruct Hbad as [Hn|He]; [done|].
      rewrite He. eauto.
    + eauto.
Qed.

Lemma sanitize_session_story_spec_witness :
  exists m s',
    files (snd (sanitize_session_story env_ok "s1" None
                  (world_of story_two_parts))) !! "s1" = Some s' /\
    messages s' = [m] /\ ai_messages (messages s') = [m] /\
    msg_type m = "ai" /\ msg_sanitized m = Some true.
Proof.
  apply (proj1 (sanitize_session_story_spec env_ok "s1" None
                  (world_of story_two_parts) story_two_parts eq_refl)).
  split; [reflexivity | discriminate].
Defined.

(** C10.  On a story with at least one ai message the endpoint always
    answers with success and stores a one-message list in place of the whole
    message list; when the provider call raised, that message holds the
    former ai contents joined by blank lines. *)
Theorem sanitize_session_story_overwrites_on_failure env sid preset w s :
  files w !! sid = Some s ->
  s_type s = "story" ->
  ai_messages (messages s) <> [] ->
  let R := sanitize_session_story env sid preset w in
  exists n1 n2 m s',
    fst R = SanitizeReply n1 n2 s' /\
    files (snd R) !! sid = Some s' /\
    messages s' = [m] /\ msg_type m = "ai" /\ msg_sanitized m = Some true /\
    (forall rq, trace (snd R) = trace w ++ [rq] ->
       provider env (length (trace w)) rq = Raises ->
       msg_content m =
         join (nl +:+ nl) (map msg_content (ai_messages (messages s)))).
Proof.
  intros Hs Hty Hai R. subst R.
  rewrite (sanitize_session_story_success env sid preset w s Hs Hty Hai).
  cbn [fst snd].
  eexists _, _, _, _. split; [reflexivity|].
  split; [apply write_session_lookup|].
  cbn [messages set_messages msg_type msg_sanitized msg_content].
  repeat split.
  intros rq Htr Hr.
  destruct (sanitize_story_attempt env
              (join (nl +:+ nl) (map msg_content (ai_messages (messages s))))
              (default "sanitizer-balanced" preset) w)
    as [[_ Hres] | (rq0 & Htr0 & Hres)]; [exact Hres|].
  cbn [write_session set_files now trace snd] in Htr.
  rewrite Htr0 in Htr. apply app_inv_head in Htr.
  injection Htr as ->. auto.
Qed.

Lemma sanitize_session_story_overwrites_witness :
  exists n1 n2 m s',
    fst (sanitize_session_story env_down "s1" None
           (world_of story_two_parts)) = SanitizeReply n1 n2 s' /\
    files (snd (sanitize_session_story env_down "s1" None
                  (world_of story_two_parts))) !! "s1" = Some s' /\
    messages s' = [m] /\
    msg_content m = "Part one." +:+ nl +:+ nl +:+ "Part two.".
Proof.
  destruct (sanitize_session_story_overwrites_on_failure env_down "s1" None
              (world_of story_two_parts) story_two_parts eq_refl eq_refl)
    as (n1 & n2 & m & s' & Hr & Hf & Hm & _ & _ & Hc); [discriminate|].
  exists n1, n2, m, s'. repeat split; try assumption.
  apply (Hc (sanitize_request "default-model"
               ("Part one." +:+ nl +:+ nl +:+ "Part two."))); reflexivity.
Defined.

(** ** Pause, resume and the paused generate call *)

Lemma set_pause_markers_same p t s : same_but_pause s (set_pause_markers p t s).
Proof. repeat split. Qed.

(** C8.  Pausing stores the same document with the pause markers set,
    resuming stores it with the markers removed, no other session file is
    touched, and a generate call on a paused session changes nothing. *)
Theorem pause_resume_frame env sid w s :
  files w !! sid = Some s ->
  (exists s',
     files (snd (pause_session env sid w)) !! sid = Some s' /\
     same_but_pause s s' /\ paused s' = Some true /\
     (forall sid', sid' <> sid ->
        files (snd (pause_session env sid w)) !! sid' = files w !! sid')) /\
  (exists s',
     files (snd (resume_session sid w)) !! sid = Some s' /\
     same_but_pause s s' /\ paused s' = None /\ paused_at s' = None /\
     (forall sid', sid' <> sid ->
        files (snd (resume_session sid w)) !! sid' = files w !! sid')) /\
  (is_paused s = true ->
   forall user_input,
     snd (generate_session_content env sid user_input w) = w /\
     exists code msg,
       fst (generate_session_content env sid user_input w) =
         Resp (PausedReply code msg)).
Proof.
  intros Hs. repeat split.
  - unfold pause_session. rewrite Hs. cbn [now snd].
    eexists. split; [apply write_session_lookup|].
    split; [apply set_pause_markers_same|]. split; [reflexivity|].
    intros sid' Hne. rewrite write_session_other by done. reflexivity.
  - unfold resume_session. rewrite Hs. cbn [snd].
    eexists. split; [apply write_session_lookup|].
    split; [apply set_pause_markers_same|]. repeat split.
    intros sid' Hne. by rewrite write_session_other.
  - unfold generate_session_content.
    match goal with Hp : is_paused s = true |- _ => rewrite Hs, Hp end.
    reflexivity.
  - unfold generate_session_content.
    match goal with Hp : is_paused s = true |- _ => rewrite Hs, Hp end.
    eauto.
Qed.

Lemma pause_resume_frame_witness :
  snd (generate_session_content env_ok "s1" "more"
         (world_of (chat_two_of_two (Some true)))) =
  world_of (chat_two_of_two (Some true)).
Proof.
  apply (proj2 (proj2 (pause_resume_frame env_ok "s1"
                         (world_of (chat_two_of_two (Some true)))
                         (chat_two_of_two (Some true)) eq_refl))).
  reflexivity.
Defined.

(** ** Which parts of the world the generators touch *)

Lemma chat_call_files env c h u w :
  files (snd (chat_call env c h u w)) = files w.
Proof.
  unfold chat_call, client_create.
  destruct (provider env _ _) as [|[r|]]; reflexivity.
Qed.

Lemma generate_story_opening_files env s w :
  files (snd (generate_story_opening env s w)) = files w.
Proof.
  unfold generate_story_opening. destruct (characters s) as [|c cs]; [done|].
  pose proof (chat_call_files env c [] (story_opening_prompt s) w) as Hf.
  destruct (chat_call env c [] _ w) as [[r|] w1]; exact Hf.
Qed.

Lemma generate_story_continuation_files env s u w :
  files (snd (generate_story_continuation env s u w)) = files w.
Proof.
  unfold generate_story_continuation.
  destruct (story_char_index s) as [i|]; [|done].
  destruct (characters s !! i) as [c|]; [|done].
  pose proof (chat_call_files env c [] (story_user_msg s u) w) as Hf.
  destruct (chat_call env c [] _ w) as [[r|] w1]; exact Hf.
Qed.

Lemma generate_chat_response_files env s u w :
  files (snd (generate_chat_response env s u w)) = files w.
Proof.
  unfold generate_chat_response.
  destruct (chat_char_index s) as [i|]; [|done].
  destruct (characters s !! i) as [c|]; [|done].
  pose proof (chat_call_files env c (chat_history (messages s))
                (chat_response_prompt s c u) w) as Hf.
  destruct (chat_call env c _ _ w) as [[r|] w1]; exact Hf.
Qed.

(** After [record_turn] the file holds the returned document, which either
    is the old one or has gained the response as its one new ai message. *)
Lemma record_turn_spec env s sid u r w :
  files w !! sid = Some s ->
  let R := record_turn env s sid u r w in
  files (snd R) !! sid = Some (fst R) /\ same_policy s (fst R) /\
  (fst R = s \/ ai_count (messages (fst R)) = S (ai_count (messages s))).
Proof.
  intros Hs. unfold record_turn.
  destruct (truthy r); [|by repeat split; auto].
  destruct (truthy u); cbn [now fst snd].
  - split; [apply write_session_lookup|]. split; [by repeat split|].
    right. unfold append_message. cbn [messages set_messages].
    rewrite !ai_count_app. cbn. lia.
  - split; [apply write_session_lookup|]. split; [by repeat split|].
    right. unfold append_message. cbn [messages set_messages].
    rewrite !ai_count_app. cbn. lia.
Qed.

Lemma story_opening_step_present env b s sid w :
  is_Some (files w !! sid) ->
  is_Some (files (snd (story_opening_step env b s sid w)) !! sid).
Proof.
  intros Hp. unfold story_opening_step.
  pose proof (generate_story_opening_files env s w) as Hf.
  destruct (generate_story_opening env s w) as [[o|] w1]; cbn [snd] in *.
  - destruct (truthy o); cbn [now snd].
    + rewrite write_session_lookup. eauto.
    + by rewrite Hf.
  - by rewrite Hf.
Qed.

Lemma story_iteration_present env sid w :
  is_Some (files w !! sid) ->
  exists sd, fst (story_iteration env sid w) = Some sd /\
             is_Some (files (snd (story_iteration env sid w)) !! sid).
Proof.
  intros [s Hs]. unfold story_iteration. rewrite Hs.
  pose proof (generate_story_continuation_files env s "" w) as Hf.
  destruct (generate_story_continuation env s "" w) as [r w1]; cbn [snd] in *.
  destruct (truthy r); cbn [now fst snd].
  - eexists. split; [reflexivity|]. rewrite write_session_lookup. eauto.
  - eexists. split; [reflexivity|]. rewrite Hf, Hs. eauto.
Qed.

(** With the session file in place the story loop runs to its end. *)
Lemma story_loop_present env n sid sd w :
  is_Some (files w !! sid) ->
  exists sd', fst (story_loop env n sid sd w) = Some sd'.
Proof.
  revert sd w. induction n as [|n IH]; intros sd w Hp; cbn [story_loop].
  - eauto.
  - destruct (story_iteration_present env sid w Hp) as (sd1 & H1 & H2).
    destruct (story_iteration env sid w) as [o w1]; cbn [fst snd] in *.
    subst o. apply IH, H2.
Qed.

(** A bounded complete-story run ends marked completed and says so. *)
Lemma generate_complete_story_bounded env s sid w L :
  jget_default (parts s) 4 = Some L -> L <> 999 ->
  is_Some (files w !! sid) ->
  exists sd,
    reply_completed (fst (generate_complete_story env s sid w)) = Some true /\
    files (snd (generate_complete_story env s sid w)) !! sid =
      Some (set_is_completed (Some true) (set_status "completed" sd)).
Proof.
  intros HL Hne Hp. unfold generate_complete_story. rewrite HL.
  destruct (L =? 999) eqn:E; [lia|].
  pose proof (story_opening_step_present env false s sid w Hp) as Hp1.
  destruct (story_opening_step env false s sid w) as [sd0 w1]; cbn [snd] in *.
  destruct (story_loop_present env (Z.to_nat (L - 1)) sid sd0 w1 Hp1)
    as (sd1 & H1).
  destruct (story_loop env _ sid sd0 w1) as [o w2]; cbn [fst] in *. subst o.
  unfold mark_completed. cbn [fst snd reply_completed].
  exists sd1. split; [reflexivity|]. apply write_session_lookup.
Qed.

(** ** The generate endpoint under a bounded limit *)

Lemma check_limit_below s L :
  session_limit s = Some L ->
  Z.of_nat (ai_count (messages s)) < L ->
  check_limit s = Proceed.
Proof.
  unfold session_limit, check_limit. intros HL Hlt.
  apply Z.leb_gt in Hlt.
  destruct (String.eqb (s_type s) "chat"); rewrite HL, Hlt; [done|].
  by rewrite andb_false_r.
Qed.

Lemma check_limit_reached s L :
  session_limit s = Some L -> L <> 999 ->
  L <= Z.of_nat (ai_count (messages s)) ->
  exists msg, check_limit s = LimitReached (GenerateReply None msg true None).
Proof.
  unfold session_limit, check_limit. intros HL Hne Hle.
  apply Z.leb_le in Hle.
  destruct (String.eqb (s_type s) "chat"); rewrite HL.
  - rewrite Hle. eauto.
  - destruct (L =? 999) eqn:E; [lia|]. rewrite Hle. cbn [negb andb]. eauto.
Qed.

Lemma completed_after_bounded s L :
  session_limit s = Some L -> L <> 999 ->
  completed_after s = Some (L <=? Z.of_nat (ai_count (messages s))).
Proof.
  unfold session_limit, completed_after. intros HL Hne.
  destruct (String.eqb (s_type s) "chat"); rewrite HL; [done|].
  destruct (L =? 999) eqn:E; [lia|]. reflexivity.
Qed.

Lemma session_limit_same_policy s s' :
  same_policy s s' -> session_limit s' = session_limit s.
Proof. intros (Ht & Hu & Hp & _). unfold session_limit. by rewrite Ht, Hu, Hp. Qed.

Lemma not_quick_chat s L :
  session_limit s = Some L -> L <> 999 ->
  (s_type s <> "chat" -> turns s <> Int 999) ->
  jeq (turns s) 999 = false.
Proof.
  unfold session_limit, jeq. intros HL Hne Hst.
  destruct (String.eqb (s_type s) "chat") eqn:Et.
  - destruct (turns s) as [| |z]; simpl in *; try reflexivity.
    injection HL as ->. lia.
  - apply String.eqb_neq in Et. specialize (Hst Et).
    destruct (turns s) as [| |z]; simpl; try reflexivity.
    destruct (z =? 999) eqn:E; [|done]. apply Z.eqb_eq in E. congruence.
Qed.

(** C1 (amended).  On a session that is not paused and has a bounded limit
    L (and, unless it is a chat, whose turns field is not 999): a generate
    call at ai count at least L changes nothing and reports completed; a
    call from below L that leaves the stored ai count at exactly L reports
    completed and stores status completed with the completion flag set. *)
Theorem generate_bounded_limit env sid user_input w s L :
  files w !! sid = Some s ->
  is_paused s = false ->
  session_limit s = Some L -> L <> 999 ->
  (s_type s <> "chat" -> turns s <> Int 999) ->
  let R := generate_session_content env sid user_input w in
  (L <= Z.of_nat (ai_count (messages s)) ->
     snd R = w /\ reply_completed (fst R) = Some true) /\
  (Z.of_nat (ai_count (messages s)) < L ->
   forall s', files (snd R) !! sid = Some s' ->
     Z.of_nat (ai_count (messages s')) = L ->
     reply_completed (fst R) = Some true /\ status s' = "completed" /\
     is_completed s' = Some true).
Proof.
  intros Hs Hp HL Hne Hst R. subst R.
  pose proof (not_quick_chat s L HL Hne Hst) as Hq.
  unfold generate_session_content. rewrite Hs, Hp, Hq. split.
  - intros Hle.
    destruct (check_limit_reached s L HL Hne Hle) as [msg ->]. done.
  - intros Hlt s' Hs' Hc. rewrite (check_limit_below s L HL Hlt) in *.
    destruct (String.eqb (s_type s) "story" && negb (truthy user_input))
      eqn:Eauto.
    + apply andb_true_iff in Eauto as [Ety _].
      assert (Hparts : jget_default (parts s) 4 = Some L).
      { unfold session_limit in HL. apply String.eqb_eq in Ety.
        rewrite Ety in HL. exact HL. }
      destruct (generate_complete_story_bounded env s sid w L Hparts Hne)
        as (sd & Hr & Hf); [by rewrite Hs|].
      rewrite Hf in Hs'. injection Hs' as <-. done.
    + set (G := if String.eqb (s_type s) "story"
                then generate_story_continuation env s user_input w
                else generate_chat_response env s user_input w) in *.
      assert (Hf : files (snd G) !! sid = Some s).
      { subst G. destruct (String.eqb (s_type s) "story");
          [rewrite generate_story_continuation_files
          |rewrite generate_chat_response_files]; exact Hs. }
      destruct G as [response w1]; cbn [snd] in Hf.
      destruct (record_turn_spec env s sid user_input response w1 Hf)
        as (Hfile & Hpol & _).
      destruct (record_turn env s sid user_input response w1) as [sd w2];
        cbn [fst snd] in *.
      rewrite (completed_after_bounded sd L) in *
        by (rewrite ?(session_limit_same_policy s sd Hpol); done).
      destruct (L <=? Z.of_nat (ai_count (messages sd))) eqn:Ec.
      * unfold mark_completed in *. cbn [fst snd reply_completed] in *.
        rewrite write_session_lookup in Hs'. injection Hs' as <-. done.
      * cbn [fst snd] in Hs'. rewrite Hfile in Hs'. injection Hs' as <-.
        apply Z.leb_gt in Ec. lia.
Qed.

Lemma generate_bounded_limit_witness :
  (snd (generate_session_content env_ok "s1" "more"
          (world_of (chat_two_of_two None))) = world_of (chat_two_of_two None)
   /\ reply_completed
        (fst (generate_session_content env_ok "s1" "more"
                (world_of (chat_two_of_two None)))) = Some true) /\
  (forall s',
     files (snd (generate_session_content env_ok "s1" "And?"
                   (world_of chat_one_of_two))) !! "s1" = Some s' ->
     status s' = "completed" /\ is_completed s' = Some true).
Proof.
  split.
  - apply (proj1 (generate_bounded_limit env_ok "s1" "more"
                    (world_of (chat_two_of_two None)) (chat_two_of_two None)
                    2 eq_refl eq_refl eq_refl ltac:(lia) ltac:(done))).
    vm_compute. discriminate.
  - intros s' Hs'.
    apply (proj2 (generate_bounded_limit env_ok "s1" "And?"
                    (world_of chat_one_of_two) chat_one_of_two
                    2 eq_refl eq_refl eq_refl ltac:(lia) ltac:(done))
             ltac:(vm_compute; reflexivity) s' Hs').
    vm_compute in Hs'. injection Hs' as <-. reflexivity.
Defined.

(** C1 as stated fails on a paused session: at ai count 2 of 2 the call is
    answered with the paused reply, which carries no completed flag.  It
    also fails on a story whose turns field is 999: the limit check is
    skipped and a third part is appended to a story of two parts. *)
Lemma generate_bounded_limit_counterexample :
  (let s := chat_two_of_two (Some true) in
   let R := generate_session_content env_ok "s1" "more" (world_of s) in
   files (world_of s) !! "s1" = Some s /\
   session_limit s = Some 2 /\
   2 <= Z.of_nat (ai_count (messages s)) /\
   reply_completed (fst R) <> Some true) /\
  (let s := story_marked_quick in
   let R := generate_session_content env_ok "s1" "more" (world_of s) in
   files (world_of s) !! "s1" = Some s /\
   session_limit s = Some 2 /\
   2 <= Z.of_nat (ai_count (messages s)) /\
   reply_completed (fst R) = Some false /\
   (ai_count <$> (messages <$> files (snd R) !! "s1")) = Some 3%nat).
Proof.
  split; cbv zeta.
  - split; [reflexivity|]. split; [reflexivity|].
    split; [vm_compute; discriminate|]. vm_compute. discriminate.
  - split; [reflexivity|]. split; [reflexivity|].
    split; [vm_compute; discriminate|]. vm_compute. split; reflexivity.
Qed.

(** ** The generate endpoint under the unlimited sentinel *)

(** C2 (amended).  On a session that is not paused and is unlimited (a chat
    with turns 999, or a story with parts 999 or null that is given user
    input), the generate call reports completed false and a null progress
    maximum, and leaves status and completion flag as they were. *)
Theorem generate_unlimited env sid user_input w s :
  files w !! sid = Some s ->
  is_paused s = false ->
  (s_type s = "chat" /\ turns s = Int 999) \/
  (s_type s = "story" /\ (parts s = Int 999 \/ parts s = Null) /\
   truthy user_input = true) ->
  let R := generate_session_content env sid user_input w in
  reply_completed (fst R) = Some false /\
  (exists n, reply_progress (fst R) = Some (n, None)) /\
  exists s', files (snd R) !! sid = Some s' /\ status s' = status s /\
             is_completed s' = is_completed s.
Proof.
  intros Hs Hp Hun R. subst R.
  unfold generate_session_content. rewrite Hs, Hp.
  set (G := if String.eqb (s_type s) "story"
            then generate_story_continuation env s user_input w
            else generate_chat_response env s user_input w).
  assert (Hf : files (snd G) !! sid = Some s).
  { subst G. destruct (String.eqb (s_type s) "story");
      [rewrite generate_story_continuation_files
      |rewrite generate_chat_response_files]; exact Hs. }
  assert (Hgo : (if jeq (turns s) 999 then Proceed else check_limit s)
                = Proceed).
  { destruct (jeq (turns s) 999) eqn:Eq; [done|].
    destruct Hun as [[Hty Ht]|(Hty & Hparts & _)].
    - rewrite Ht in Eq. discriminate.
    - unfold check_limit. rewrite Hty. cbn [String.eqb].
      change ("story" =? "chat")%string with false. cbv iota.
      destruct Hparts as [-> | ->]; reflexivity. }
  rewrite Hgo.
  assert (Hman : String.eqb (s_type s) "story" && negb (truthy user_input)
                 = false).
  { destruct Hun as [[Hty _]|(_ & _ & Hu)].
    - rewrite Hty. reflexivity.
    - rewrite Hu. apply andb_false_r. }
  rewrite Hman. fold G.
  destruct G as [response w1]; cbn [snd] in Hf.
  destruct (record_turn_spec env s sid user_input response w1 Hf)
    as (Hfile & (Hty' & Htu' & Hpa' & Hst' & Hic') & _).
  destruct (record_turn env s sid user_input response w1) as [sd w2];
    cbn [fst snd] in *.
  destruct (jeq (turns s) 999) eqn:Eq.
  - cbn [fst snd reply_completed reply_progress]. eauto 10.
  - destruct Hun as [[Hty Ht]|(Hty & Hparts & _)].
    { rewrite Ht in Eq. discriminate. }
    assert (Hca : completed_after sd = Some false).
    { unfold completed_after. rewrite Hty', Hty, Hpa'.
      change ("story" =? "chat")%string with false. cbv iota.
      destruct Hparts as [-> | ->]; reflexivity. }
    rewrite Hca. cbn [fst snd reply_completed reply_progress].
    assert (Hpm : progress_max sd = None).
    { unfold progress_max. rewrite Hty', Hty, Hpa'.
      change ("story" =? "chat")%string with false. cbv iota.
      destruct Hparts as [-> | ->]; reflexivity. }
    rewrite Hpm. eauto 10.
Qed.

Lemma generate_unlimited_witness :
  reply_completed
    (fst (generate_session_content env_ok "s1" "more"
            (world_of (quick_chat None)))) = Some false /\
  reply_completed
    (fst (generate_session_content env_ok "s1" "more"
            (world_of story_unlimited))) = Some false.
Proof.
  split.
  - apply (generate_unlimited env_ok "s1" "more" (world_of (quick_chat None))
             (quick_chat None) eq_refl eq_refl).
    left. split; reflexivity.
  - apply (generate_unlimited env_ok "s1" "more" (world_of story_unlimited)
             story_unlimited eq_refl eq_refl).
    right. split; [reflexivity|]. split; [by left | reflexivity].
Defined.

(** C2 as stated fails on a paused session: the call on a paused chat with
    turns 999 is answered with the paused reply, which reports neither a
    completed flag nor a progress object. *)
Lemma generate_unlimited_counterexample :
  let s := quick_chat (Some true) in
  let R := generate_session_content env_ok "s1" "more" (world_of s) in
  files (world_of s) !! "s1" = Some s /\
  s_type s = "chat" /\ turns s = Int 999 /\
  reply_completed (fst R) <> Some false /\
  reply_progress (fst R) = None.
Proof.
  cbv zeta. repeat split; try reflexivity. vm_compute. discriminate.
Qed.

(** The same unlimited story without user input takes the complete-story
    path, whose unlimited branch hands back [True] instead of a reply. *)
Example generate_unlimited_story_without_input :
  fst (generate_session_content env_ok "s1" "" (world_of story_unlimited))
  = PyTrue.
Proof. reflexivity. Qed.

(** ** Auto-runs and the pause flag *)

(** The story loop body never reads the pause flag: on a paused document
    with a non-empty continuation it appends and saves as usual. *)
Lemma story_iteration_appends_while_paused env sid w s :
  files w !! sid = Some s ->
  is_paused s = true ->
  truthy (fst (generate_story_continuation env s "" w)) = true ->
  exists s',
    files (snd (story_iteration env sid w)) !! sid = Some s' /\
    is_paused s' = true /\
    ai_count (messages s') = S (ai_count (messages s)).
Proof.
  intros Hs Hp Ht. unfold story_iteration. rewrite Hs.
  destruct (generate_story_continuation env s "" w) as [r w1]; cbn [fst] in Ht.
  rewrite Ht. cbn [now snd]. eexists. split; [apply write_session_lookup|].
  split; [exact Hp|]. unfold append_message. cbn [messages set_messages].
  rewrite ai_count_app. cbn. lia.
Qed.

(** C3 (code evaluated at the failing input).  A story of three parts is
    paused right after its opening; the remaining loop still appends two
    parts while the stored document stays paused.  In the multi-character
    run a pause stored after the first turn is overwritten by the second
    turn, which is appended all the same. *)
Theorem auto_run_ignores_pause :
  (let '(sd0, w1) :=
     story_opening_step env_ok false story_of_three "s1"
       (world_of story_of_three) in
   let w2 := snd (pause_session env_ok "s1" w1) in
   let w3 := snd (story_loop env_ok 2 "s1" sd0 w2) in
   (is_paused <$> files w2 !! "s1") = Some true /\
   (ai_count <$> (messages <$> files w2 !! "s1")) = Some 1%nat /\
   (is_paused <$> files w3 !! "s1") = Some true /\
   (ai_count <$> (messages <$> files w3 !! "s1")) = Some 3%nat) /\
  (exists sd1 h1 w1,
     multi_turn env_ok "s1" 0 multi_chat [] (world_of multi_chat)
       = (Some (sd1, h1), w1) /\
     let w2 := snd (pause_session env_ok "s1" w1) in
     let w3 := snd (multi_turn env_ok "s1" 1 sd1 h1 w2) in
     (is_paused <$> files w2 !! "s1") = Some true /\
     (ai_count <$> (messages <$> files w2 !! "s1")) = Some 1%nat /\
     (is_paused <$> files w3 !! "s1") = Some false /\
     (ai_count <$> (messages <$> files w3 !! "s1")) = Some 2%nat).
Proof.
  split.
  - vm_compute. repeat split.
  - eexists _, _, _. split; [vm_compute; reflexivity|].
    vm_compute. repeat split.
Qed.

(** ** Auto-runs and provider failure *)

(** C4 (code evaluated at the failing input).  In a story of two parts
    whose second provider call raises, the loop appends the fallback
    sentence as a story part, and the run ends with status completed and
    the completion flag set. *)
Theorem story_auto_run_completes_on_provider_failure :
  let R := generate_complete_story env_flaky story_of_two "s1"
             (world_of story_of_two) in
  provider env_flaky 1 = (fun _ => Raises) /\
  reply_completed (fst R) = Some true /\
  (map msg_content <$> (messages <$> files (snd R) !! "s1"))
    = Some ["Once upon a time."; story_continuation_fallback] /\
  (status <$> files (snd R) !! "s1") = Some "completed" /\
  (is_completed <$> files (snd R) !! "s1") = Some (Some true) /\
  log (snd R) = ["Story continuation error"].
Proof. vm_compute. repeat split. Qed.

(** The multi-character run, by contrast, stops at the failing call: what
    was saved stays, and the session is not marked completed. *)
Example multi_auto_run_stops_on_provider_failure :
  let R := generate_multi_character_conversation env_flaky multi_chat "s1"
             (world_of multi_chat) in
  fst R = PyFalse /\
  (ai_count <$> (messages <$> files (snd R) !! "s1")) = Some 1%nat /\
  (status <$> files (snd R) !! "s1") = Some "active" /\
  (is_completed <$> files (snd R) !! "s1") = Some None.
Proof. vm_compute. repeat split. Qed.

(** ** Speaker rotation *)

(** In chat mode the request goes out as the participant at index
    ai count modulo the number of participants. *)
Lemma chat_speaker_round_robin env s u w c :
  characters s <> [] ->
  characters s !! (ai_count (messages s) mod length (characters s))%nat
    = Some c ->
  exists rq,
    trace (snd (generate_chat_response env s u w)) = trace w ++ [rq] /\
    rq_agent rq = CharacterAgent c.
Proof.
  intros Hne Hc. unfold generate_chat_response, chat_char_index.
  destruct (characters s) as [|c0 cs] eqn:Ecs; [done|].
  cbn [length]. cbn [length] in Hc. rewrite Hc.
  unfold chat_call, client_create.
  destruct (provider env _ _) as [|[r|]]; cbn [snd trace log_error];
    eexists; split; reflexivity.
Qed.

(** C5 (code evaluated at the failing input).  A story with participants
    Nova and Rex holds two ai parts and one user message.  The ai count is
    2, so turn 2 belongs to participant 0, Nova; the story generator indexes
    by the length of the whole message list, 3, and sends the request as
    Rex. *)
Theorem story_speaker_counts_all_messages :
  let R := generate_session_content env_ok "s1" "more"
             (world_of story_steered) in
  ai_count (messages story_steered) = 2%nat /\
  characters story_steered
    !! (ai_count (messages story_steered)
        mod length (characters story_steered))%nat = Some nova /\
  story_char_index story_steered = Some 1%nat /\
  map rq_agent (trace (snd R)) = [CharacterAgent rex].
Proof. vm_compute. repeat split. Qed.

(** ** Session creation *)

(** A create request without characters is refused before anything is
    written, called or scheduled. *)
Lemma create_session_no_characters env data w :
  req_characters data = None \/ req_characters data = Some [] ->
  create_session env data w = (ErrorReply 400 "Characters are required", w, None).
Proof. intros [H|H]; unfold create_session; rewrite H; reflexivity. Qed.

(** C9 (code evaluated at the failing input).  A multi-character chat
    request with a single participant is answered with 201 and its session
    document is written; the scheduled run then returns without calling the
    provider. *)
Theorem create_session_accepts_lone_multi_chat :
  exists sid content sd w',
    create_session env_ok lone_multi_request empty_world
      = (CreatedReply 201 sid content, w', Some (MultiTask sd sid)) /\
    chatMode sd = Some "multi" /\ length (characters sd) = 1%nat /\
    files empty_world !! sid = None /\
    files w' !! sid = Some sd /\
    generate_multi_character_conversation env_ok sd sid w' = (PyNone, w').
Proof. eexists _, _, _, _. vm_compute. repeat split. Qed.

(** * Further properties *)

(** ** Stripping *)

Lemma append_cons c s t : String c s +:+ t = String c (s +:+ t).
Proof. reflexivity. Qed.

Lemma append_assoc (s t u : string) : (s +:+ t) +:+ u = s +:+ (t +:+ u).
Proof.
  induction s as [|c s IH]; [done|]. rewrite !append_cons. by rewrite IH.
Qed.

Lemma rev_string_acc s acc : rev_string s acc = rev_string s "" +:+ acc.
Proof.
  revert acc. induction s as [|c s IH]; intros acc; cbn [rev_string].
  - reflexivity.
  - rewrite (IH (String c acc)), (IH (String c "")).
    rewrite append_assoc. reflexivity.
Qed.

Lemma rev_string_app s t acc :
  rev_string (s +:+ t) acc = rev_string t (rev_string s acc).
Proof.
  revert acc. induction s as [|c s IH]; intros acc; [done|].
  rewrite append_cons. cbn [rev_string]. apply IH.
Qed.

Lemma rev_string_involutive s : rev_string (rev_string s "") "" = s.
Proof.
  induction s as [|c s IH]; cbn [rev_string]; [done|].
  rewrite (rev_string_acc s), rev_string_app. cbn [rev_string].
  by rewrite IH.
Qed.

Lemma lstrip_clean_head s : clean_head (lstrip s).
Proof.
  induction s as [|c s IH]; cbn; [done|].
  destruct (is_space c) eqn:E; [exact IH | exact E].
Qed.

Lemma lstrip_fixed s : clean_head s -> lstrip s = s.
Proof. destruct s as [|c s]; cbn; [done|]. by intros ->. Qed.

Lemma lstrip_before_anchor x h :
  is_space h = false ->
  exists x', lstrip (x +:+ String h "") = x' +:+ String h "" /\ clean_head x'.
Proof.
  intros Hh. induction x as [|c x IH].
  - exists "". split; [|done].
    change (lstrip (String h "") = String h ""). cbn. by rewrite Hh.
  - rewrite append_cons. cbn [lstrip].
    destruct (is_space c) eqn:E; [exact IH|].
    exists (String c x). by split.
Qed.

Lemma strip_shape s :
  strip s = "" \/
  exists h x', is_space h = false /\ clean_head x' /\
               strip s = String h (rev_string x' "").
Proof.
  unfold strip. pose proof (lstrip_clean_head s) as Hc.
  destruct (lstrip s) as [|h t]; [by left|]. right. cbn in Hc.
  cbn [rev_string]. rewrite (rev_string_acc t).
  destruct (lstrip_before_anchor (rev_string t "") h Hc) as (x' & -> & Hx).
  exists h, x'. split; [done|]. split; [done|].
  rewrite rev_string_app. reflexivity.
Qed.

Lemma strip_idempotent s : strip (strip s) = strip s.
Proof.
  destruct (strip_shape s) as [-> | (h & x' & Hh & Hx & ->)]; [done|].
  unfold strip. rewrite (lstrip_fixed (String h _)) by exact Hh.
  cbn [rev_string]. rewrite (rev_string_acc (rev_string x' "")).
  rewrite rev_string_involutive.
  rewrite lstrip_fixed.
  - rewrite rev_string_app. reflexivity.
  - destruct x' as [|c x']; cbn; [exact Hh | exact Hx].
Qed.

(** ** Generators under a provider that answers *)

Lemma chat_call_answers env c h u w :
  answers env ->
  exists r rq,
    truthy r = true /\ strip r = r /\
    chat_call env c h u w =
      (Some r, {| files := files w; trace := trace w ++ [rq];
                  log := log w; ticks := ticks w |}).
Proof.
  intros Ha. unfold chat_call, client_create.
  destruct (Ha (length (trace w))
              {| rq_agent := CharacterAgent c; rq_history := h;
                 rq_user_msg := u |}) as (t & -> & Ht).
  eexists (strip t), _. split; [exact Ht|]. split; [apply strip_idempotent|].
  reflexivity.
Qed.

Lemma rotation_lookup {A : Type} (l : list A) (k : nat) :
  l <> [] -> is_Some (l !! (k mod length l)%nat).
Proof.
  intros Hne. apply lookup_lt_is_Some. apply Nat.mod_upper_bound.
  destruct l; [done|]. cbn. lia.
Qed.

Lemma generate_story_continuation_answers env s u w :
  answers env -> characters s <> [] ->
  exists r rq,
    truthy r = true /\
    generate_story_continuation env s u w =
      (r, {| files := files w; trace := trace w ++ [rq];
             log := log w; ticks := ticks w |}).
Proof.
  intros Ha Hne. unfold generate_story_continuation, story_char_index.
  destruct (rotation_lookup (characters s) (length (messages s)) Hne)
    as [c Hc].
  destruct (length (characters s)) as [|n] eqn:El.
  { destruct (characters s); [done | discriminate]. }
  rewrite Hc.
  destruct (chat_call_answers env c [] (story_user_msg s u) w Ha)
    as (r & rq & Hr & Hs & ->).
  exists r, rq. by rewrite Hs.
Qed.

Lemma generate_story_opening_answers env s w :
  answers env -> characters s <> [] ->
  exists r rq,
    truthy r = true /\
    generate_story_opening env s w =
      (Some r, {| files := files w; trace := trace w ++ [rq];
                  log := log w; ticks := ticks w |}).
Proof.
  intros Ha Hne. unfold generate_story_opening.
  destruct (characters s) as [|c cs]; [done|].
  destruct (chat_call_answers env c [] (story_opening_prompt s) w Ha)
    as (r & rq & Hr & Hs & ->).
  exists r, rq. by rewrite Hs.
Qed.

(** With a provider that answers, every pass of the story loop appends one
    ai message to the stored document. *)
Lemma story_loop_answers env n sid sd w :
  answers env -> characters sd <> [] ->
  files w !! sid = Some sd ->
  exists new w',
    story_loop env n sid sd w = (Some (set_messages (messages sd ++ new) sd), w')
    /\ files w' !! sid = Some (set_messages (messages sd ++ new) sd)
    /\ length new = n /\ Forall (fun m => is_ai m = true) new
    /\ length (trace w') = (length (trace w) + n)%nat
    /\ (forall sid', sid' <> sid -> files w' !! sid' = files w !! sid').
Proof.
  intros Ha. revert sd w. induction n as [|n IH]; intros sd w Hne Hf.
  - exists [], w. cbn [story_loop]. rewrite app_nil_r.
    assert (set_messages (messages sd) sd = sd) as -> by (by destruct sd).
    repeat split; auto.
  - cbn [story_loop]. unfold story_iteration. rewrite Hf.
    destruct (generate_story_continuation_answers env sd "" w Ha Hne)
      as (r & rq & Hr & ->).
    rewrite Hr. cbn [now].
    set (m := ai_message r _).
    set (w1 := write_session sid _ _).
    destruct (IH (append_message m sd) w1) as (new & w' & Hl & Hf' & Hn & Hai & Htr & Hoth).
    { exact Hne. }
    { apply write_session_lookup. }
    unfold append_message in *. cbn [messages set_messages] in *.
    exists (m :: new), w'.
    replace (messages sd ++ m :: new) with ((messages sd ++ [m]) ++ new)
      by (by rewrite <- app_assoc).
    split; [exact Hl|]. split; [exact Hf'|].
    split; [cbn; lia|]. split; [by constructor|].
    split.
    + rewrite Htr. subst w1. cbn. rewrite length_app. cbn. lia.
    + intros sid' Hd. rewrite Hoth by done. subst w1.
      by rewrite write_session_other.
Qed.

(** The bounded complete-story run under a provider that answers, in
    full. *)
Lemma complete_story_answered env s sid w L :
  answers env ->
  characters s <> [] ->
  jget_default (parts s) 4 = Some L -> 1 <= L -> L <> 999 ->
  exists story msg w',
    generate_complete_story env s sid w =
      (Resp (GenerateReply (Some (join (nl +:+ nl) (map msg_content story)))
               msg true (Some (Z.to_nat L, Some L))), w') /\
    files w' !! sid =
      Some (set_is_completed (Some true)
              (set_status "completed" (set_messages story s))) /\
    length story = Z.to_nat L /\
    Forall (fun m => is_ai m = true) story /\
    length (trace w') = (length (trace w) + Z.to_nat L)%nat.
Proof.
  intros Ha Hne HL H1 H999. unfold generate_complete_story. rewrite HL.
  destruct (L =? 999) eqn:E; [lia|].
  unfold story_opening_step.
  destruct (generate_story_opening_answers env s w Ha Hne)
    as (o & rq & Ho & ->).
  rewrite Ho. cbn [now].
  set (m := ai_message o _). set (w1 := write_session sid _ _).
  destruct (story_loop_answers env (Z.to_nat (L - 1)) sid (set_messages [m] s)
              w1 Ha Hne) as (new & w2 & -> & Hf & Hn & Hai & Htr & _).
  { apply write_session_lookup. }
  cbn [messages set_messages] in *. unfold mark_completed.
  assert (Hai' : Forall (fun x => is_ai x = true) (m :: new))
    by (by constructor).
  assert (Hfilter : ai_messages (m :: new) = m :: new).
  { unfold ai_messages. clear -Hai'. induction Hai' as [|x l Hx _ IH];
      [done|]. cbn. by rewrite Hx, IH. }
  cbn [messages set_messages set_status set_is_completed].
  change ([m] ++ new) with (m :: new). rewrite Hfilter.
  assert (Hlen : length (m :: new) = Z.to_nat L) by (cbn; lia).
  rewrite !length_map, Hlen.
  eexists (m :: new), _, _. split; [reflexivity|].
  split; [apply write_session_lookup|]. split; [exact Hlen|].
  split; [exact Hai'|].
  cbn [write_session set_files trace]. rewrite Htr. subst w1. cbn.
  rewrite length_app. cbn. lia.
Qed.

(** A bounded complete-story run under a provider that answers: the stored
    document ends with exactly L messages, all of them ai parts generated by
    this run (whatever was there before is gone), marked completed, after
    exactly L provider calls; the reply reports L of L. *)
Theorem complete_story_produces_all_parts env s sid w L :
  answers env ->
  characters s <> [] ->
  jget_default (parts s) 4 = Some L -> 1 <= L -> L <> 999 ->
  exists story msg w',
    generate_complete_story env s sid w =
      (Resp (GenerateReply (Some (join (nl +:+ nl) (map msg_content story)))
               msg true (Some (Z.to_nat L, Some L))), w') /\
    files w' !! sid =
      Some (set_is_completed (Some true)
              (set_status "completed" (set_messages story s))) /\
    length story = Z.to_nat L /\
    Forall (fun m => is_ai m = true) story /\
    length (trace w') = (length (trace w) + Z.to_nat L)%nat.
Proof. apply complete_story_answered. Qed.

Lemma env_ok_answers : answers env_ok.
Proof. intros n rq. eexists. split; reflexivity. Qed.

Lemma complete_story_produces_all_parts_witness :
  exists story msg w',
    generate_complete_story env_ok story_of_three "s1"
        (world_of story_of_three) =
      (Resp (GenerateReply (Some (join (nl +:+ nl) (map msg_content story)))
               msg true (Some (Z.to_nat 3, Some 3))), w') /\
    files w' !! "s1" =
      Some (set_is_completed (Some true)
              (set_status "completed" (set_messages story story_of_three))) /\
    length story = Z.to_nat 3 /\
    Forall (fun m => is_ai m = true) story /\
    length (trace w') =
      (length (trace (world_of story_of_three)) + Z.to_nat 3)%nat.
Proof.
  apply (complete_story_produces_all_parts env_ok story_of_three "s1"
           (world_of story_of_three) 3 env_ok_answers).
  - discriminate.
  - reflexivity.
  - lia.
  - lia.
Defined.

(** ** The multi-character conversation *)

Lemma chat_call_answers_at env c h u w :
  answers_at env (length (trace w)) ->
  exists r rq,
    truthy r = true /\ strip r = r /\
    chat_call env c h u w =
      (Some r, {| files := files w; trace := trace w ++ [rq];
                  log := log w; ticks := ticks w |}).
Proof.
  intros Ha. unfold chat_call, client_create.
  destruct (Ha {| rq_agent := CharacterAgent c; rq_history := h;
                  rq_user_msg := u |}) as (t & -> & Ht).
  eexists (strip t), _. split; [exact Ht|]. split; [apply strip_idempotent|].
  reflexivity.
Qed.

Lemma chat_call_raises_at env c h u w :
  raises_at env (length (trace w)) ->
  exists rq,
    chat_call env c h u w =
      (None, {| files := files w; trace := trace w ++ [rq];
                log := log w; ticks := ticks w |}).
Proof.
  intros Hr. unfold chat_call, client_create. rewrite Hr. eauto.
Qed.

(** A stretch of turns during which the provider answers: each turn appends
    one ai message, attributed to the participant at the turn index modulo
    the number of participants, and saves the document. *)
Lemma multi_loop_answered env sid todo rest sd h w :
  characters sd <> [] ->
  (forall j, (j < length todo)%nat ->
     answers_at env (length (trace w) + j)) ->
  exists new h' w',
    multi_loop env sid (todo ++ rest) sd h w =
      multi_loop env sid rest (set_messages (messages sd ++ new) sd) h' w' /\
    length new = length todo /\
    (forall j turn, todo !! j = Some turn ->
       exists m c,
         new !! j = Some m /\
         characters sd !! (turn mod length (characters sd))%nat = Some c /\
         msg_type m = "ai" /\ msg_character m = Some (c_name c)) /\
    length (trace w') = (length (trace w) + length todo)%nat /\
    log w' = log w /\
    (todo = [] -> w' = w) /\
    files w' !! sid =
      match todo with
      | [] => files w !! sid
      | _ => Some (set_messages (messages sd ++ new) sd)
      end /\
    (forall sid', sid' <> sid -> files w' !! sid' = files w !! sid').
Proof.
  revert sd h w. induction todo as [|turn todo IH]; intros sd h w Hne Hans.
  - exists [], h, w. rewrite app_nil_r. cbn [app].
    assert (set_messages (messages sd) sd = sd) as -> by (by destruct sd).
    repeat split; auto; try done.
  - cbn [app multi_loop]. unfold multi_turn.
    destruct (rotation_lookup (characters sd) turn Hne) as [c Hc].
    rewrite Hc.
    destruct (chat_call_answers_at env c []
                (multi_prompt sd c h turn) w) as (r & rq & Hr & Hs & ->).
    { specialize (Hans 0%nat). rewrite Nat.add_0_r in Hans.
      apply Hans. cbn. lia. }
    rewrite Hr, Hs. cbn [now].
    set (m := {| msg_type := "ai"; msg_character := Some (c_name c);
                 msg_content := r; msg_timestamp := _;
                 msg_sanitized := None |}).
    set (w1 := write_session sid _ _).
    destruct (IH (append_message m sd) (h ++ [(c_name c, r)]) w1)
      as (new & h' & w' & Hl & Hn & Hat & Htr & Hlog & _ & Hfile & Hoth).
    { exact Hne. }
    { intros j Hj. subst w1. cbn [write_session set_files trace].
      rewrite length_app. cbn [length].
      replace (length (trace w) + 1 + j)%nat
        with (length (trace w) + S j)%nat by lia.
      apply Hans. cbn. lia. }
    unfold append_message in *. cbn [messages set_messages characters] in *.
    rewrite <- app_assoc in Hl, Hfile. cbn [app] in Hl, Hfile.
    exists (m :: new), h', w'. split; [exact Hl|].
    split; [cbn; lia|]. split.
    { intros [|j] t Ht; cbn in Ht.
      - injection Ht as <-. exists m, c. by repeat split.
      - apply (Hat j t Ht). }
    split.
    { rewrite Htr. subst w1. cbn [write_session set_files trace].
      rewrite length_app. cbn. lia. }
    split; [by rewrite Hlog|]. split; [done|]. split.
    { destruct todo as [|t0 todo']; [|exact Hfile].
      destruct new; [|cbn in Hn; lia]. rewrite Hfile. subst w1.
      apply write_session_lookup. }
    intros sid' Hd. rewrite Hoth by done. subst w1.
    by rewrite write_session_other.
Qed.

Lemma answers_everywhere env i : answers env -> answers_at env i.
Proof. intros Ha rq. apply Ha. Qed.

(** With at least two participants and a provider that answers, the
    multi-character run appends one ai message per turn (none when turns is
    zero or negative), attributes turn k to participant k modulo the number
    of participants, marks the session completed and makes one provider
    call per turn. *)
Theorem multi_conversation_runs_all_turns env s sid w T :
  answers env ->
  (2 <= length (characters s))%nat ->
  jget_default (turns s) 6 = Some T ->
  exists new w',
    generate_multi_character_conversation env s sid w = (PyTrue, w') /\
    files w' !! sid =
      Some (set_is_completed (Some true)
              (set_status "completed"
                 (set_messages (messages s ++ new) s))) /\
    length new = Z.to_nat T /\
    (forall k, (k < Z.to_nat T)%nat ->
       exists m c,
         new !! k = Some m /\
         characters s !! (k mod length (characters s))%nat = Some c /\
         msg_type m = "ai" /\ msg_character m = Some (c_name c)) /\
    length (trace w') = (length (trace w) + Z.to_nat T)%nat.
Proof.
  intros Ha Hn HT. unfold generate_multi_character_conversation.
  destruct (length (characters s) <? 2)%nat eqn:E;
    [apply Nat.ltb_lt in E; lia|].
  rewrite HT.
  assert (Hne : characters s <> []).
  { destruct (characters s); [cbn in Hn; lia | done]. }
  destruct (multi_loop_answered env sid (seq 0 (Z.to_nat T)) [] s [] w Hne)
    as (new & h' & w' & Hl & Hlen & Hat & Htr & _ & _ & _ & _).
  { intros j _. by apply answers_everywhere. }
  rewrite app_nil_r in Hl. rewrite Hl. cbn [multi_loop].
  unfold mark_completed. rewrite length_seq in *.
  exists new, (write_session sid
                 (set_is_completed (Some true)
                    (set_status "completed"
                       (set_messages (messages s ++ new) s))) w').
  split; [reflexivity|]. split; [apply write_session_lookup|].
  split; [exact Hlen|]. split; [|exact Htr].
  intros k Hk. apply (Hat k k). apply lookup_seq. lia.
Qed.

Lemma multi_conversation_runs_all_turns_witness :
  exists new w',
    generate_multi_character_conversation env_ok multi_chat "s1"
      (world_of multi_chat) = (PyTrue, w') /\
    files w' !! "s1" =
      Some (set_is_completed (Some true)
              (set_status "completed"
                 (set_messages (messages multi_chat ++ new) multi_chat))) /\
    length new = Z.to_nat 3 /\
    (forall k, (k < Z.to_nat 3)%nat ->
       exists m c,
         new !! k = Some m /\
         characters multi_chat !! (k mod length (characters multi_chat))%nat
           = Some c /\
         msg_type m = "ai" /\ msg_character m = Some (c_name c)) /\
    length (trace w') =
      (length (trace (world_of multi_chat)) + Z.to_nat 3)%nat.
Proof.
  apply (multi_conversation_runs_all_turns env_ok multi_chat "s1"
           (world_of multi_chat) 3 env_ok_answers).
  - cbn. lia.
  - reflexivity.
Defined.

(** When the provider answers the first k turns and raises on the next,
    the multi-character run stops there: it returns [False], logs the
    error, makes no further call, keeps the k turns it has saved and does
    not mark the session completed. *)
Theorem multi_conversation_stops_at_failure env s sid w T k :
  (2 <= length (characters s))%nat ->
  jget_default (turns s) 6 = Some T ->
  (k < Z.to_nat T)%nat ->
  (forall j, (j < k)%nat -> answers_at env (length (trace w) + j)) ->
  raises_at env (length (trace w) + k) ->
  exists w',
    generate_multi_character_conversation env s sid w = (PyFalse, w') /\
    length (trace w') = (length (trace w) + k + 1)%nat /\
    log w' = log w ++ ["Multi-character conversation generation error"] /\
    (k = 0%nat -> files w' = files w) /\
    ((0 < k)%nat ->
       exists new,
         files w' !! sid = Some (set_messages (messages s ++ new) s) /\
         length new = k).
Proof.
  intros Hn HT Hk Hans Hraise.
  unfold generate_multi_character_conversation.
  destruct (length (characters s) <? 2)%nat eqn:E;
    [apply Nat.ltb_lt in E; lia|].
  rewrite HT.
  assert (Hne : characters s <> []).
  { destruct (characters s); [cbn in Hn; lia | done]. }
  assert (Hsplit : seq 0 (Z.to_nat T)
                   = seq 0 k ++ k :: seq (S k) (Z.to_nat T - S k)).
  { replace (Z.to_nat T) with (k + S (Z.to_nat T - S k))%nat at 1 by lia.
    rewrite seq_app. reflexivity. }
  rewrite Hsplit.
  destruct (multi_loop_answered env sid (seq 0 k)
              (k :: seq (S k) (Z.to_nat T - S k)) s [] w Hne)
    as (new & h' & w1 & Hl & Hlen & _ & Htr & Hlog & Hw & Hfile & _).
  { intros j Hj. rewrite length_seq in Hj. by apply Hans. }
  rewrite length_seq in *. rewrite Hl. cbn [multi_loop]. unfold multi_turn.
  cbn [characters set_messages].
  destruct (rotation_lookup (characters s) k Hne) as [c Hc]. rewrite Hc.
  destruct (chat_call_raises_at env c []
              (multi_prompt (set_messages (messages s ++ new) s) c h' k) w1)
    as (rq & ->).
  { rewrite Htr. exact Hraise. }
  eexists. split; [reflexivity|]. cbn [log_error trace log files].
  split; [rewrite length_app, Htr; cbn; lia|].
  split; [by rewrite Hlog|]. split.
  - intros ->. by rewrite (Hw eq_refl).
  - intros Hpos. exists new. split; [|exact Hlen].
    destruct k; [lia|]. rewrite Hfile. rewrite seq_S.
    destruct (seq 0 k); reflexivity.
Qed.

Lemma env_flaky_answers_first : answers_at env_flaky 0.
Proof. intros rq. eexists. split; reflexivity. Qed.

Lemma multi_conversation_stops_at_failure_witness :
  exists w',
    generate_multi_character_conversation env_flaky multi_chat "s1"
      (world_of multi_chat) = (PyFalse, w') /\
    length (trace w') = 2%nat /\
    exists new,
      files w' !! "s1"
        = Some (set_messages (messages multi_chat ++ new) multi_chat) /\
      length new = 1%nat.
Proof.
  destruct (multi_conversation_stops_at_failure env_flaky multi_chat "s1"
              (world_of multi_chat) 3 1)
    as (w' & HR & Htr & _ & _ & Hk).
  - cbn. lia.
  - reflexivity.
  - cbn. lia.
  - intros j Hj. replace j with 0%nat by lia. exact env_flaky_answers_first.
  - intros rq. reflexivity.
  - exists w'. split; [exact HR|]. split; [exact Htr|]. apply Hk. lia.
Defined.

(** ** The single-turn path of the generate endpoint *)

Lemma chat_call_trace env c h u w :
  exists rq, trace (snd (chat_call env c h u w)) = trace w ++ [rq].
Proof.
  unfold chat_call, client_create.
  destruct (provider env _ _) as [|[r|]]; eexists; reflexivity.
Qed.

(** A single-turn generator leaves the files alone and makes at most one
    provider call. *)
Lemma single_turn_generator_effects env s u w :
  let G := if String.eqb (s_type s) "story"
           then generate_story_continuation env s u w
           else generate_chat_response env s u w in
  files (snd G) = files w /\
  (length (trace (snd G)) <= S (length (trace w)))%nat.
Proof.
  destruct (String.eqb (s_type s) "story"); cbv zeta.
  - split; [apply generate_story_continuation_files|].
    unfold generate_story_continuation.
    destruct (story_char_index s) as [i|]; [|cbn; lia].
    destruct (characters s !! i) as [c|]; [|cbn; lia].
    destruct (chat_call_trace env c [] (story_user_msg s u) w) as [rq Hrq].
    destruct (chat_call env c [] _ w) as [[r|] w1]; cbn [snd] in *;
      cbn [log_error trace]; rewrite Hrq, length_app; cbn; lia.
  - split; [apply generate_chat_response_files|].
    unfold generate_chat_response.
    destruct (chat_char_index s) as [i|]; [|cbn; lia].
    destruct (characters s !! i) as [c|]; [|cbn; lia].
    destruct (chat_call_trace env c (chat_history (messages s))
                (chat_response_prompt s c u) w) as [rq Hrq].
    destruct (chat_call env c _ _ w) as [[r|] w1]; cbn [snd] in *;
      cbn [log_error trace]; rewrite Hrq, length_app; cbn; lia.
Qed.

(** What [record_turn] stores. *)
Lemma record_turn_messages env s sid u r w :
  let R := record_turn env s sid u r w in
  (truthy r = false /\ R = (s, w)) \/
  (truthy r = true /\
   exists t t',
     fst R = set_messages (messages s ++ turn_messages u r t' t) s /\
     files (snd R) = <[sid := fst R]> (files w) /\
     trace (snd R) = trace w).
Proof.
  unfold record_turn, turn_messages.
  destruct (truthy r); [right|by left]. split; [done|].
  destruct (truthy u); cbn [now fst snd].
  - exists (clock env (S (ticks w))), (clock env (ticks w)).
    unfold append_message; cbn [messages set_messages].
    rewrite <- app_assoc. repeat split.
  - exists (clock env (ticks w)), 0.
    unfold append_message; cbn [messages set_messages]. repeat split.
Qed.

Lemma completed_after_defined s sd :
  check_limit s = Proceed ->
  s_type sd = s_type s -> turns sd = turns s -> parts sd = parts s ->
  completed_after sd <> None.
Proof.
  unfold check_limit, completed_after. intros Hc -> -> ->.
  destruct (String.eqb (s_type s) "chat").
  - destruct (jget_default (turns s) 6); [done | discriminate].
  - destruct (jget_default (parts s) 4); done.
Qed.

(** On the single-turn path (any session that is not a story called without
    input) a generate call only ever appends to the stored messages: nothing,
    or the user input followed by the ai response that the reply carries.  It
    makes at most one provider call and touches no other session. *)
Theorem generate_single_turn_appends env sid u w s :
  files w !! sid = Some s ->
  String.eqb (s_type s) "story" && negb (truthy u) = false ->
  let R := generate_session_content env sid u w in
  exists s' new,
    files (snd R) !! sid = Some s' /\
    messages s' = messages s ++ new /\
    (new = [] \/
     exists r t t',
       truthy r = true /\ new = turn_messages u r t' t /\
       reply_response (fst R) = Some r) /\
    (length (trace (snd R)) <= S (length (trace w)))%nat /\
    (forall sid', sid' <> sid -> files (snd R) !! sid' = files w !! sid').
Proof.
  intros Hs Hman R. subst R. unfold generate_session_content.
  rewrite Hs.
  assert (Hnone : exists s' new,
             files w !! sid = Some s' /\ messages s' = messages s ++ new /\
             (new = [] \/
              exists r t t', truthy r = true /\ new = turn_messages u r t' t /\
                             @None string = Some r) /\
             (length (trace w) <= S (length (trace w)))%nat /\
             (forall sid', sid' <> sid -> files w !! sid' = files w !! sid')).
  { exists s, []. rewrite app_nil_r. repeat split; auto. }
  destruct (is_paused s); [exact Hnone|].
  destruct (if jeq (turns s) 999 then Proceed else check_limit s) eqn:Elim.
  - (* limit reached: the reply of the limit check has no response *)
    cbn [fst snd].
    assert (reply_response (Resp r) = None) as Hr.
    { destruct (jeq (turns s) 999); [discriminate|].
      unfold check_limit in Elim.
      repeat match type of Elim with
             | context [if ?b then _ else _] => destruct b
             | context [match ?o with Some _ => _ | None => _ end] =>
                 destruct o
             end; try discriminate; injection Elim as <-; reflexivity. }
    rewrite Hr. exact Hnone.
  - exact Hnone.
  - rewrite Hman.
    pose proof (single_turn_generator_effects env s u w) as [Hgf Hgt].
    cbv zeta in Hgf, Hgt.
    destruct (if String.eqb (s_type s) "story"
              then generate_story_continuation env s u w
              else generate_chat_response env s u w) as [response w1].
    cbn [snd] in Hgf, Hgt.
    pose proof (record_turn_messages env s sid u response w1) as Hrec.
    cbv zeta in Hrec.
    destruct (record_turn env s sid u response w1) as [sd w2].
    cbn [fst snd] in Hrec.
    assert (Hsd : files w2 !! sid = Some sd /\
                  (forall sid', sid' <> sid ->
                     files w2 !! sid' = files w !! sid') /\
                  (length (trace w2) <= S (length (trace w)))%nat /\
                  exists new, messages sd = messages s ++ new /\
                    (new = [] \/
                     exists r t t', truthy r = true
                       /\ new = turn_messages u r t' t /\ response = r)).
    { destruct Hrec as [[_ Heq] | (Hr & t & t' & -> & Hf & Htr)].
      - injection Heq as -> ->. rewrite Hgf. repeat split; auto.
        exists []. rewrite app_nil_r. auto.
      - rewrite Hf, Htr. split; [apply lookup_insert_eq|].
        split; [intros sid' Hd; rewrite lookup_insert_ne by done;
                by rewrite Hgf|].
        split; [exact Hgt|]. eexists. split; [reflexivity|].
        right. eauto 10. }
    destruct Hsd as (Hfile & Hoth & Htrace & new & Hmsg & Hnew).
    assert (Hpol : s_type sd = s_type s /\ turns sd = turns s
                   /\ parts sd = parts s).
    { destruct Hrec as [[_ Heq] | (_ & t & t' & -> & _)];
        [by injection Heq as -> _ | done]. }
    destruct Hpol as (Hty & Htu & Hpa).
    assert (Hresp : new = [] \/
              exists r t t', truthy r = true /\ new = turn_messages u r t' t
                             /\ Some response = Some r).
    { destruct Hnew as [->|(r & t & t' & ? & ? & ->)]; [by left|].
      right. eauto 10. }
    destruct (jeq (turns s) 999) eqn:Eq.
    + cbn [fst snd reply_response]. exists sd, new. repeat split; auto.
    + pose proof (completed_after_defined s sd Elim Hty Htu Hpa) as Hdef.
      destruct (completed_after sd) as [[|]|]; [| |done].
      * unfold mark_completed. cbn [fst snd reply_response].
        eexists _, new. split; [apply write_session_lookup|].
        cbn [messages set_is_completed set_status].
        split; [exact Hmsg|]. split; [exact Hresp|].
        split; [exact Htrace|].
        intros sid' Hd. rewrite write_session_other by done. auto.
      * cbn [fst snd reply_response]. exists sd, new. repeat split; auto.
Qed.

Lemma generate_single_turn_appends_witness :
  let R := generate_session_content env_ok "s1" "And?"
             (world_of chat_one_of_two) in
  exists s' new,
    files (snd R) !! "s1" = Some s' /\
    messages s' = messages chat_one_of_two ++ new /\
    (new = [] \/
     exists r t t',
       truthy r = true /\ new = turn_messages "And?" r t' t /\
       reply_response (fst R) = Some r) /\
    (length (trace (snd R)) <= S (length (trace (world_of chat_one_of_two))))%nat /\
    (forall sid', sid' <> "s1" ->
       files (snd R) !! sid' = files (world_of chat_one_of_two) !! sid').
Proof.
  exact (generate_single_turn_appends env_ok "s1" "And?"
           (world_of chat_one_of_two) chat_one_of_two eq_refl eq_refl).
Defined.

(** When the session has no participants or the provider call raises, the
    single-turn generator hands back its fallback sentence. *)
Lemma single_turn_generator_fallback env s u w :
  characters s = [] \/ raises_at env (length (trace w)) ->
  let G := if String.eqb (s_type s) "story"
           then generate_story_continuation env s u w
           else generate_chat_response env s u w in
  fst G = turn_fallback s /\
  (characters s = [] -> trace (snd G) = trace w).
Proof.
  intros Hcase. unfold turn_fallback.
  destruct (String.eqb (s_type s) "story"); cbv zeta.
  - unfold generate_story_continuation, story_char_index.
    destruct (characters s) as [|c0 cs] eqn:Ec; [done|].
    destruct Hcase as [|Hr]; [done|]. cbn [length].
    destruct (_ !! _) as [c|]; [|done].
    destruct (chat_call_raises_at env c [] (story_user_msg s u) w Hr)
      as (rq & ->). done.
  - unfold generate_chat_response, chat_char_index.
    destruct (characters s) as [|c0 cs] eqn:Ec; [done|].
    destruct Hcase as [|Hr]; [done|]. cbn [length].
    destruct (_ !! _) as [c|]; [|done].
    destruct (chat_call_raises_at env c (chat_history (messages s))
                (chat_response_prompt s c u) w Hr) as (rq & ->). done.
Qed.

(** A single-turn generate call on a session below its limit never fails
    when the provider call raises or the session has no participants: the
    reply carries the fallback sentence, and that sentence is stored as an
    ai message after the user input, so it counts as a turn.  Without
    participants no provider call is made at all. *)
Theorem generate_stores_fallback env sid u w s L :
  files w !! sid = Some s ->
  is_paused s = false ->
  session_limit s = Some L ->
  Z.of_nat (ai_count (messages s)) < L ->
  String.eqb (s_type s) "story" && negb (truthy u) = false ->
  characters s = [] \/ raises_at env (length (trace w)) ->
  let R := generate_session_content env sid u w in
  reply_response (fst R) = Some (turn_fallback s) /\
  (exists s' t t',
     files (snd R) !! sid = Some s' /\
     messages s' = messages s ++ turn_messages u (turn_fallback s) t' t) /\
  (characters s = [] -> trace (snd R) = trace w).
Proof.
  intros Hs Hp HL Hlt Hman Hcase R. subst R.
  unfold generate_session_content. rewrite Hs, Hp.
  pose proof (check_limit_below s L HL Hlt) as Hlim.
  assert (Hgo : (if jeq (turns s) 999 then Proceed else check_limit s)
                = Proceed) by (by destruct (jeq (turns s) 999)).
  rewrite Hgo, Hman.
  pose proof (single_turn_generator_fallback env s u w Hcase) as [Hfb Htr].
  cbv zeta in Hfb, Htr.
  destruct (if String.eqb (s_type s) "story"
            then generate_story_continuation env s u w
            else generate_chat_response env s u w) as [response w1].
  cbn [fst snd] in Hfb, Htr. subst response.
  assert (Htruthy : truthy (turn_fallback s) = true).
  { unfold turn_fallback. by destruct (String.eqb (s_type s) "story"). }
  pose proof (record_turn_messages env s sid u (turn_fallback s) w1) as Hrec.
  cbv zeta in Hrec.
  destruct (record_turn env s sid u (turn_fallback s) w1) as [sd w2].
  cbn [fst snd] in Hrec.
  destruct Hrec as [[Hf _] | (_ & t & t' & -> & Hf & Htr2)]; [congruence|].
  destruct (jeq (turns s) 999).
  - cbn [fst snd reply_response]. split; [done|]. split.
    + eexists _, t, t'. rewrite Hf. split; [apply lookup_insert_eq|done].
    + intros Hc. rewrite Htr2. auto.
  - match goal with |- context [completed_after ?d] =>
      pose proof (completed_after_defined s d Hlim eq_refl eq_refl eq_refl)
        as Hdef; destruct (completed_after d) as [[|]|]; [| |done] end.
    + unfold mark_completed. cbn [fst snd reply_response].
      split; [done|]. split.
      * eexists _, t, t'. split; [apply write_session_lookup|done].
      * intros Hc. cbn [write_session set_files trace]. rewrite Htr2. auto.
    + cbn [fst snd reply_response]. split; [done|]. split.
      * eexists _, t, t'. rewrite Hf. split; [apply lookup_insert_eq|done].
      * intros Hc. rewrite Htr2. auto.
Qed.

Lemma generate_stores_fallback_witness :
  reply_response
    (fst (generate_session_content env_down "s1" "And?"
            (world_of chat_one_of_two)))
  = Some chat_response_fallback.
Proof.
  apply (generate_stores_fallback env_down "s1" "And?"
           (world_of chat_one_of_two) chat_one_of_two 2
           eq_refl eq_refl eq_refl).
  - vm_compute. reflexivity.
  - reflexivity.
  - right. intros rq. reflexivity.
Defined.

(** ** The unlimited story run *)

(** With parts 999 the complete-story run makes at most the opening call,
    hands back [True], and either leaves the files as they are or stores
    the document with the opening as its only message and status active; it
    never marks completion. *)
Theorem unlimited_story_run_opens_only env s sid w :
  jget_default (parts s) 4 = Some 999 ->
  let R := generate_complete_story env s sid w in
  fst R = PyTrue /\
  (length (trace (snd R)) <= S (length (trace w)))%nat /\
  (files (snd R) = files w \/
   exists o t,
     truthy o = true /\
     files (snd R) =
       <[sid := set_status "active" (set_messages [ai_message o t] s)]>
         (files w)).
Proof.
  intros HL R. subst R. unfold generate_complete_story. rewrite HL.
  change (999 =? 999) with true. cbv iota.
  unfold story_opening_step, generate_story_opening.
  destruct (characters s) as [|c cs]; [cbn; auto|].
  pose proof (chat_call_files env c [] (story_opening_prompt s) w) as Hf.
  destruct (chat_call_trace env c [] (story_opening_prompt s) w) as [rq Hrq].
  destruct (chat_call env c [] _ w) as [[r|] w1]; cbn [fst snd] in *.
  - destruct (truthy (strip r)) eqn:Er; cbn [now fst snd].
    + split; [done|]. cbn [write_session set_files trace files].
      rewrite Hrq, length_app. split; [cbn; lia|].
      right. eexists _, _. split; [exact Er|]. by rewrite Hf.
    + split; [done|]. rewrite Hrq, length_app. split; [cbn; lia|]. by left.
  - cbn [log_error trace files]. split; [done|].
    rewrite Hrq, length_app. split; [cbn; lia|]. by left.
Qed.

Lemma unlimited_story_run_opens_only_witness :
  fst (generate_complete_story env_ok story_unlimited "s1"
         (world_of story_unlimited)) = PyTrue.
Proof.
  apply (unlimited_story_run_opens_only env_ok story_unlimited "s1"
           (world_of story_unlimited) eq_refl).
Defined.

(** ** The chat history window *)


(** ** Pause and resume compose *)

(** Resuming after a pause gives the same files as resuming alone (pauses do
    not nest), and on a session that carried no pause markers it restores
    the files exactly. *)
Theorem pause_then_resume_restores env sid w s :
  files w !! sid = Some s ->
  let w' := snd (resume_session sid (snd (pause_session env sid w))) in
  files w' = files (snd (resume_session sid w)) /\
  (paused s = None -> paused_at s = None -> files w' = files w).
Proof.
  intros Hs w'. subst w'. unfold pause_session. rewrite Hs. cbn [now snd].
  unfold resume_session. rewrite write_session_lookup, Hs. cbn [snd].
  unfold write_session, set_files. cbn [files]. rewrite insert_insert_eq.
  split; [reflexivity|]. intros Hp Ht.
  assert (set_pause_markers None None
            (set_pause_markers (Some true) (Some (clock env (ticks w))) s) = s)
    as ->.
  { destruct s. cbn in *. subst. reflexivity. }
  by apply insert_id.
Qed.

Lemma pause_then_resume_restores_witness :
  files (snd (resume_session "s1"
                (snd (pause_session env_ok "s1" (world_of chat_one_of_two)))))
  = files (world_of chat_one_of_two).
Proof.
  apply (pause_then_resume_restores env_ok "s1" (world_of chat_one_of_two)
           chat_one_of_two eq_refl); reflexivity.
Defined.

(** ** Deleting a session *)

(** Deleting a stored session answers 200, leaves every other session as it
    was, and afterwards each endpoint answers 404 for that id and changes
    nothing. *)
Theorem delete_session_removes env sid w s :
  files w !! sid = Some s ->
  let w' := snd (delete_session sid w) in
  (exists msg, fst (delete_session sid w) = MessageReply 200 msg) /\
  (forall sid', sid' <> sid -> get_session sid' w' = get_session sid' w) /\
  (exists e, get_session sid w' = inr (ErrorReply 404 e)) /\
  (exists e, delete_session sid w' = (ErrorReply 404 e, w')) /\
  (exists e, pause_session env sid w' = (ErrorReply 404 e, w')) /\
  (exists e, resume_session sid w' = (ErrorReply 404 e, w')) /\
  (forall u, exists e,
     generate_session_content env sid u w' = (Resp (ErrorReply 404 e), w')) /\
  (forall preset, exists e,
     sanitize_session_story env sid preset w' = (ErrorReply 404 e, w')).
Proof.
  intros Hs w'. subst w'.
  assert (Hdel : delete_session sid w =
                 (MessageReply 200 "Session deleted successfully",
                  set_files (delete sid (files w)) w)).
  { unfold delete_session. by rewrite Hs. }
  rewrite Hdel. cbn [fst snd].
  set (w' := set_files (delete sid (files w)) w).
  assert (Hgone : files w' !! sid = None) by apply lookup_delete_eq.
  split; [eauto|]. split.
  { intros sid' Hd. unfold get_session. subst w'. cbn [files set_files].
    by rewrite lookup_delete_ne. }
  unfold get_session, delete_session, pause_session, resume_session,
    generate_session_content, sanitize_session_story.
  rewrite Hgone. repeat split; eauto.
Qed.

Lemma delete_session_removes_witness :
  exists e,
    get_session "s1" (snd (delete_session "s1" (world_of chat_one_of_two)))
    = inr (ErrorReply 404 e).
Proof.
  apply (delete_session_removes env_ok "s1" (world_of chat_one_of_two)
           chat_one_of_two eq_refl).
Defined.

(** ** Migration of the completion flag *)

Lemma migrate_session_cases s :
  (status s = "completed" /\ is_completed s = None /\
   migrate_session s = set_is_completed (Some true) s) \/
  ((status s <> "completed" \/ is_Some (is_completed s)) /\
   migrate_session s = s).
Proof.
  unfold migrate_session.
  destruct (String.eqb (status s) "completed") eqn:Es.
  - apply String.eqb_eq in Es. destruct (is_completed s) as [b|] eqn:Ei.
    + right. rewrite bool_decide_eq_true_2 by eauto. cbn. split; [|done].
      right. eauto.
    + left. rewrite bool_decide_eq_false_2 by (intros [? ?]; done).
      cbn. auto.
  - apply String.eqb_neq in Es. right. auto.
Qed.

(** After the migration every stored session with status completed carries
    the completion flag; the migration keeps the set of sessions, changes
    no field other than that flag, and leaves alone every session that is
    not completed or already has the flag. *)
Theorem migrate_existing_sessions_sound w sid :
  match files w !! sid with
  | None => files (migrate_existing_sessions w) !! sid = None
  | Some s =>
      exists s',
        files (migrate_existing_sessions w) !! sid = Some s' /\
        s' = set_is_completed (is_completed s') s /\
        (status s' = "completed" -> is_Some (is_completed s')) /\
        (status s <> "completed" \/ is_Some (is_completed s) -> s' = s)
  end.
Proof.
  unfold migrate_existing_sessions. cbn [files set_files].
  rewrite lookup_fmap. destruct (files w !! sid) as [s|]; [|done].
  cbn. exists (migrate_session s). split; [done|].
  destruct (migrate_session_cases s) as [(Hst & Hi & ->) | (Hc & ->)].
  - cbn. split; [done|]. split; [eauto|].
    intros [Hn | [b Hb]]; [done | congruence].
  - split; [by destruct s|]. split; [|done].
    intros Hst. destruct Hc as [Hn|Hi]; [done | exact Hi].
Qed.

(** Migrating twice is the same as migrating once, and a document marked
    completed by the generate endpoint or an auto-run is not changed by the
    migration. *)
Theorem migrate_existing_sessions_idempotent w :
  migrate_existing_sessions (migrate_existing_sessions w)
    = migrate_existing_sessions w /\
  forall s sid w0,
    migrate_session (fst (mark_completed s sid w0))
      = fst (mark_completed s sid w0).
Proof.
  assert (Hflag : forall s, is_Some (is_completed s) -> migrate_session s = s).
  { intros s [b Hb].
    destruct (migrate_session_cases s) as [(_ & Hi & _) | (_ & ->)];
      [congruence | done]. }
  split.
  - unfold migrate_existing_sessions, set_files. cbn [files trace log ticks].
    f_equal. rewrite <- map_fmap_compose. apply map_fmap_ext.
    intros sid s _. cbn.
    destruct (migrate_session_cases s) as [(Hst & Hi & ->) | (Hc & Heq)].
    + apply Hflag. cbn. eauto.
    + by rewrite !Heq.
  - intros s sid w0. apply Hflag. cbn. eauto.
Qed.

Import MoreFixtures.

(** ** Creating a session *)

Lemma all_ai_count (l : list Message) :
  Forall (fun m => is_ai m = true) l -> ai_count l = length l.
Proof.
  unfold ai_count, ai_messages. induction 1 as [|x l Hx _ IH]; [done|].
  cbn. rewrite Hx. cbn. by rewrite IH.
Qed.

(** Creating a bounded story answers 201 without calling the provider and
    schedules the run; with a provider that answers, running the scheduled
    task leaves a stored story of exactly the requested number of parts,
    every message an ai part, marked completed. *)
Theorem created_story_runs_to_completion env data w infos P :
  answers env ->
  req_characters data = Some infos ->
  load_session_characters env infos <> [] ->
  req_type data = Some "story" ->
  jget_default (req_parts data) 4 = Some P -> 1 <= P -> P <> 999 ->
  exists sid content task w1,
    create_session env data w = (CreatedReply 201 sid content, w1, Some task)
    /\ trace w1 = trace w
    /\ exists s',
         files (run_task env task w1) !! sid = Some s' /\
         s_type s' = "story" /\ status s' = "completed" /\
         is_completed s' = Some true /\
         length (messages s') = Z.to_nat P /\
         ai_count (messages s') = Z.to_nat P.
Proof.
  intros Ha Hc Hload Hty HP H1 H999. unfold create_session.
  rewrite Hc, Hty. destruct infos as [|i infos]; [done|].
  cbn [default now]. change ("story" =? "chat")%string with false.
  change ("story" =? "story")%string with true. cbv iota. cbn [andb].
  set (sd := {| s_id := _ |}). set (w2 := write_session _ sd _).
  eexists _, _, _, _. split; [reflexivity|]. split; [reflexivity|].
  cbn [run_task].
  destruct (complete_story_answered env sd
              (session_ids env (ticks w)) w2 P Ha)
    as (story & msg & w3 & -> & Hf & Hlen & Hai & _); try done.
  { subst sd. cbn [parts]. unfold stored_limit. by rewrite HP. }
  cbn [snd]. eexists. split; [exact Hf|].
  cbn [s_type status is_completed messages set_is_completed set_status
       set_messages]. subst sd. cbn [s_type].
  repeat split; auto. by rewrite all_ai_count.
Qed.

Lemma created_story_runs_to_completion_witness :
  exists sid content task w1,
    create_session env_ok story_request empty_world
      = (CreatedReply 201 sid content, w1, Some task)
    /\ trace w1 = trace empty_world
    /\ exists s',
         files (run_task env_ok task w1) !! sid = Some s' /\
         s_type s' = "story" /\ status s' = "completed" /\
         is_completed s' = Some true /\
         length (messages s') = Z.to_nat 3 /\
         ai_count (messages s') = Z.to_nat 3.
Proof.
  apply (created_story_runs_to_completion env_ok story_request empty_world
           [nova_info] 3 env_ok_answers eq_refl).
  - vm_compute. discriminate.
  - reflexivity.
  - reflexivity.
  - lia.
  - lia.
Defined.




(** ** What the sanitizer returns *)

(** Whenever [sanitize_story] calls the provider, its result is decided by
    the outcome of that one call: the input text when the call raises or
    returns no content or empty content, and otherwise the stripped
    content, even when stripping leaves nothing. *)
Theorem sanitize_story_by_outcome env text preset w rq :
  trace (snd (sanitize_story env text preset w)) = trace w ++ [rq] ->
  fst (sanitize_story env text preset w) =
    match provider env (length (trace w)) rq with
    | Content (Some result) => if truthy result then strip result else text
    | _ => text
    end.
Proof.
  unfold sanitize_story.
  destruct (preset_files env !! preset) as [[|m]|]; cbn [snd trace log_error].
  - intros Htr. exfalso. apply (f_equal (@length Request)) in Htr.
    rewrite length_app in Htr. cbn in Htr. lia.
  - unfold client_create.
    match goal with |- context [provider ?e ?n ?q] =>
      destruct (provider e n q) as [|[r|]] eqn:Hp end;
      cbn [fst snd trace log_error]; intros Htr;
      apply app_inv_head in Htr; injection Htr as <-; by rewrite Hp.
  - unfold client_create.
    match goal with |- context [provider ?e ?n ?q] =>
      destruct (provider e n q) as [|[r|]] eqn:Hp end;
      cbn [fst snd trace log_error]; intros Htr;
      apply app_inv_head in Htr; injection Htr as <-; by rewrite Hp.
Qed.

Lemma sanitize_story_by_outcome_witness :
  fst (sanitize_story env_ok "The end.  The end." "sanitizer-balanced"
         empty_world) = "Once upon a time.".
Proof.
  apply (sanitize_story_by_outcome env_ok "The end.  The end."
           "sanitizer-balanced" empty_world
           (sanitize_request "default-model" "The end.  The end.")).
  reflexivity.
Defined.

(** ** Rating a session *)

(** A rating request is stored only when its star count lies between 1 and
    5 and its content rating is one of the five known labels; in every
    other case the reply is a 400 error and neither the ratings nor the
    world change.  The stored entry keeps the requested values, and its
    preview is at most 200 characters long. *)
Theorem rate_session_validates env sid data ratings w :
  let R := rate_session env sid data ratings w in
  match fst (fst R) with
  | Rated entry =>
      jget (rr_rating data) = Some (r_rating entry) /\
      1 <= r_rating entry <= 5 /\
      rr_content_rating data = Some (r_content_rating entry) /\
      In (r_content_rating entry) valid_content_ratings /\
      (String.length (r_preview entry) <= 200)%nat /\
      get_session_rating sid (snd (fst R)) = Some entry /\
      (forall sid', sid' <> sid ->
         get_session_rating sid' (snd (fst R))
           = get_session_rating sid' ratings) /\
      files (snd R) = files w
  | RateError code _ => code = 400 /\ snd (fst R) = ratings /\ snd R = w
  end.
Proof.
  unfold rate_session.
  destruct (jget (rr_rating data)) as [rating|]; [|done].
  destruct (rr_content_rating data) as [cr|]; [|done].
  destruct ((rating =? 0) || negb (truthy cr)); [done|].
  destruct ((1 <=? rating) && (rating <=? 5)) eqn:Er; [|done].
  destruct (existsb (String.eqb cr) valid_content_ratings) eqn:Ec; [|done].
  cbn [negb now fst snd r_rating r_content_rating r_preview].
  apply andb_true_iff in Er as [H1 H5].
  split; [done|]. split; [lia|]. split; [done|]. split.
  { apply existsb_exists in Ec as (x & Hin & Heq).
    apply String.eqb_eq in Heq. by subst. }
  split.
  { destruct (files w !! sid) as [s|]; [|cbn; lia].
    unfold rating_preview. destruct (messages s) as [|m ms]; [cbn; lia|].
    generalize (msg_content m). generalize 200%nat. clear.
    intros n s. revert n. induction s as [|c s IH]; intros [|n]; cbn;
      try lia. specialize (IH n). lia. }
  unfold get_session_rating. split; [apply lookup_insert_eq|].
  split; [|done]. intros sid' Hd. by rewrite lookup_insert_ne.
Qed.

(** ** File names *)

Lemma all_chars_squeeze p s :
  all_chars p s = true -> all_chars p (squeeze_underscores s) = true.
Proof.
  induction s as [|c s IH]; [done|]. cbn [all_chars].
  intros [Hc Hs]%andb_true_iff. cbn [squeeze_underscores].
  destruct s as [|c' s']; [cbn; by rewrite Hc|].
  destruct (is_underscore c && is_underscore c'); [by apply IH|].
  cbn [all_chars]. rewrite Hc. by apply IH.
Qed.

Lemma squeeze_head c s :
  exists r, squeeze_underscores (String c s) = String c r.
Proof.
  revert c. induction s as [|c' s IH]; intros c; [by exists ""|].
  cbn [squeeze_underscores].
  destruct (is_underscore c && is_underscore c') eqn:E.
  - apply andb_true_iff in E as [Hc Hc'].
    apply Ascii.eqb_eq in Hc, Hc'. subst. apply IH.
  - eauto.
Qed.

Lemma no_double_squeeze s : no_double_underscore (squeeze_underscores s) = true.
Proof.
  induction s as [|c s IH]; [done|]. cbn [squeeze_underscores].
  destruct s as [|c' s']; [done|].
  destruct (is_underscore c && is_underscore c') eqn:E; [exact IH|].
  destruct (squeeze_head c' s') as [r Hr]. rewrite Hr in *.
  change (negb (is_underscore c && is_underscore c')
          && no_double_underscore (String c' r) = true).
  by rewrite E, IH.
Qed.

Lemma lstrip_underscores_keeps p s :
  all_chars p s = true -> all_chars p (lstrip_underscores s) = true.
Proof.
  induction s as [|c s IH]; [done|]. cbn [all_chars lstrip_underscores].
  intros [Hc Hs]%andb_true_iff.
  destruct (is_underscore c); [by apply IH|]. cbn. by rewrite Hc.
Qed.

Lemma no_double_tail c s :
  no_double_underscore (String c s) = true -> no_double_underscore s = true.
Proof.
  cbn [no_double_underscore]. destruct s; [done|].
  by intros [_ ?]%andb_true_iff.
Qed.

Lemma lstrip_underscores_no_double s :
  no_double_underscore s = true ->
  no_double_underscore (lstrip_underscores s) = true.
Proof.
  induction s as [|c s IH]; [done|]. intros Hn. cbn [lstrip_underscores].
  destruct (is_underscore c); [|exact Hn]. apply IH.
  by apply no_double_tail in Hn.
Qed.

Lemma lstrip_underscores_head s :
  head_not_underscore (lstrip_underscores s) = true.
Proof.
  induction s as [|c s IH]; [done|]. cbn [lstrip_underscores].
  destruct (is_underscore c) eqn:E; [exact IH|]. cbn. by rewrite E.
Qed.

Lemma rstrip_underscores_keeps p s :
  all_chars p s = true -> all_chars p (rstrip_underscores s) = true.
Proof.
  induction s as [|c s IH]; [done|]. cbn [all_chars rstrip_underscores].
  intros [Hc Hs]%andb_true_iff.
  destruct (is_underscore c && negb (truthy (rstrip_underscores s)));
    [done|]. cbn. rewrite Hc. by apply IH.
Qed.

Lemma rstrip_underscores_head c s r :
  rstrip_underscores (String c s) = r ->
  r = "" \/ exists r', r = String c r'.
Proof.
  cbn [rstrip_underscores].
  destruct (is_underscore c && negb (truthy (rstrip_underscores s)));
    intros <-; eauto.
Qed.

Lemma rstrip_underscores_no_double s :
  no_double_underscore s = true ->
  no_double_underscore (rstrip_underscores s) = true.
Proof.
  induction s as [|c s IH]; [done|]. intros Hn.
  pose proof (no_double_tail c s Hn) as Ht. specialize (IH Ht).
  cbn [rstrip_underscores].
  destruct (is_underscore c && negb (truthy (rstrip_underscores s)));
    [done|].
  destruct s as [|c' s']; [done|].
  destruct (rstrip_underscores_head c' s' _ eq_refl) as [Hr|[r' Hr]];
    rewrite Hr in *; [done|].
  change (negb (is_underscore c && is_underscore c')
          && no_double_underscore (String c' s') = true) in Hn.
  change (negb (is_underscore c && is_underscore c')
          && no_double_underscore (String c' r') = true).
  apply andb_true_iff in Hn as [Hcc _]. by rewrite Hcc, IH.
Qed.

Lemma rstrip_underscores_head_kept s :
  head_not_underscore s = true ->
  head_not_underscore (rstrip_underscores s) = true.
Proof.
  destruct s as [|c s]; [done|]. intros Hh.
  destruct (rstrip_underscores_head c s _ eq_refl) as [->|[r' ->]]; done.
Qed.

Lemma rstrip_underscores_last s :
  last_not_underscore (rstrip_underscores s) = true.
Proof.
  induction s as [|c s IH]; [done|]. cbn [rstrip_underscores].
  destruct (is_underscore c && negb (truthy (rstrip_underscores s))) eqn:E;
    [done|].
  destruct (rstrip_underscores s) as [|c' r]; [|exact IH].
  cbn in E |- *. rewrite andb_true_r in E. by rewrite E.
Qed.

Lemma underscore_safe : safe_char "_"%char = true.
Proof. reflexivity. Qed.

Lemma replaced_chars_safe s :
  all_chars safe_char
    (map_chars (fun c => if Ascii.eqb c " "%char then "_"%char else c)
       (map_chars (fun c => if is_invalid_char c then "_"%char else c) s))
  = true.
Proof.
  induction s as [|c s IH]; [done|]. cbn [map_chars all_chars].
  rewrite IH, andb_true_r.
  destruct (is_invalid_char c) eqn:Ei; [reflexivity|].
  destruct (Ascii.eqb c " "%char) eqn:Es; [reflexivity|].
  unfold safe_char. by rewrite Ei, Es.
Qed.

(** The name [sanitize_filename] returns is never empty, contains none of
    the invalid characters (angle brackets, colon, double quote, slash,
    backslash, bar, question mark, asterisk) and no space, has no two
    underscores in a row, and neither starts nor ends with an underscore. *)
Lemma sanitize_filename_is_clean filename :
  clean_name (sanitize_filename filename) = true.
Proof.
  unfold sanitize_filename.
  set (m := map_chars _ (map_chars _ filename)).
  set (r := strip_underscores (squeeze_underscores m)).
  destruct (truthy r) eqn:Et; [|reflexivity].
  unfold clean_name. rewrite Et. cbn [andb].
  pose proof (replaced_chars_safe filename) as Hsafe. fold m in Hsafe.
  pose proof (all_chars_squeeze _ _ Hsafe) as Hsq.
  pose proof (no_double_squeeze m) as Hnd.
  subst r. unfold strip_underscores.
  rewrite rstrip_underscores_keeps by (by apply lstrip_underscores_keeps).
  rewrite rstrip_underscores_no_double
    by (by apply lstrip_underscores_no_double).
  rewrite rstrip_underscores_head_kept by apply lstrip_underscores_head.
  by rewrite rstrip_underscores_last.
Qed.

Lemma map_chars_fixed f s :
  all_chars (fun c => Ascii.eqb (f c) c) s = true -> map_chars f s = s.
Proof.
  induction s as [|c s IH]; [done|]. cbn [all_chars map_chars].
  intros [Hc Hs]%andb_true_iff. apply Ascii.eqb_eq in Hc.
  by rewrite Hc, IH.
Qed.

Lemma all_chars_impl (p q : ascii -> bool) s :
  (forall c, p c = true -> q c = true) ->
  all_chars p s = true -> all_chars q s = true.
Proof.
  intros Hpq. induction s as [|c s IH]; [done|]. cbn [all_chars].
  intros [Hc Hs]%andb_true_iff. by rewrite (Hpq c Hc), IH.
Qed.

Lemma squeeze_fixed s :
  no_double_underscore s = true -> squeeze_underscores s = s.
Proof.
  induction s as [|c s IH]; [done|]. intros Hn.
  pose proof (no_double_tail c s Hn) as Ht.
  cbn [squeeze_underscores]. destruct s as [|c' s']; [done|].
  change (negb (is_underscore c && is_underscore c')
          && no_double_underscore (String c' s') = true) in Hn.
  apply andb_true_iff in Hn as [Hcc _]. apply negb_true_iff in Hcc.
  rewrite Hcc. by rewrite IH.
Qed.

Lemma lstrip_underscores_fixed s :
  head_not_underscore s = true -> lstrip_underscores s = s.
Proof.
  destruct s as [|c s]; [done|]. cbn. intros H%negb_true_iff. by rewrite H.
Qed.

Lemma rstrip_underscores_fixed s :
  last_not_underscore s = true -> rstrip_underscores s = s.
Proof.
  induction s as [|c s IH]; [done|]. cbn [last_not_underscore].
  destruct s as [|c' s'].
  - intros H%negb_true_iff. cbn. by rewrite H.
  - intros Hl.
    change (rstrip_underscores (String c (String c' s')))
      with (if is_underscore c
               && negb (truthy (rstrip_underscores (String c' s')))
            then EmptyString
            else String c (rstrip_underscores (String c' s'))).
    rewrite (IH Hl). cbn [truthy negb]. by rewrite andb_false_r.
Qed.

Lemma sanitize_filename_keeps_clean name :
  clean_name name = true -> sanitize_filename name = name.
Proof.
  unfold clean_name.
  intros [[[[Ht Hs]%andb_true_iff Hn]%andb_true_iff Hh]%andb_true_iff Hl]
           %andb_true_iff.
  unfold sanitize_filename.
  rewrite (map_chars_fixed _ name).
  2:{ eapply all_chars_impl; [|exact Hs]. intros c Hc. unfold safe_char in Hc.
      apply andb_true_iff in Hc as [Hi _]. apply negb_true_iff in Hi.
      rewrite Hi. apply Ascii.eqb_refl. }
  rewrite (map_chars_fixed _ name).
  2:{ eapply all_chars_impl; [|exact Hs]. intros c Hc. unfold safe_char in Hc.
      apply andb_true_iff in Hc as [_ Hsp]. apply negb_true_iff in Hsp.
      rewrite Hsp. apply Ascii.eqb_refl. }
  rewrite (squeeze_fixed name Hn). unfold strip_underscores.
  rewrite (lstrip_underscores_fixed name Hh),
    (rstrip_underscores_fixed name Hl).
  by rewrite Ht.
Qed.

(** The name [sanitize_filename] returns is clean: never empty, free of the
    invalid characters and of spaces, without two underscores in a row and
    without an underscore at either end.  A name that is already clean is
    returned unchanged, so sanitizing twice gives the same name as
    sanitizing once. *)
Theorem sanitize_filename_spec filename :
  clean_name (sanitize_filename filename) = true /\
  (clean_name filename = true -> sanitize_filename filename = filename) /\
  sanitize_filename (sanitize_filename filename)
    = sanitize_filename filename.
Proof.
  split; [apply sanitize_filename_is_clean|].
  split; [apply sanitize_filename_keeps_clean|].
  apply sanitize_filename_keeps_clean, sanitize_filename_is_clean.
Qed.

Lemma sanitize_filename_spec_witness :
  sanitize_filename "Nova_Prime" = "Nova_Prime".
Proof.
  apply (proj1 (proj2 (sanitize_filename_spec "Nova_Prime"))). reflexivity.
Defined.

Example sanitize_filename_examples :
  sanitize_filename "  My: Char?? __x " = "My_Char_x" /\
  sanitize_filename " _?_ " = "character" /\
  sanitize_filename "" = "character".
Proof. repeat split. Qed.

(** ** A chat turn under a provider that answers *)

Lemma generate_chat_response_answers env s u w :
  answers env -> characters s <> [] ->
  exists r rq,
    truthy r = true /\
    generate_chat_response env s u w =
      (r, {| files := files w; trace := trace w ++ [rq];
             log := log w; ticks := ticks w |}).
Proof.
  intros Ha Hne. unfold generate_chat_response, chat_char_index.
  destruct (rotation_lookup (characters s) (ai_count (messages s)) Hne)
    as [c Hc].
  destruct (length (characters s)) as [|n] eqn:El.
  { destruct (characters s); [done | discriminate]. }
  rewrite Hc.
  destruct (chat_call_answers env c (chat_history (messages s))
              (chat_response_prompt s c u) w Ha)
    as (r & rq & Hr & Hs & ->).
  exists r, rq. by rewrite Hs.
Qed.

Lemma ai_count_turn_messages u r t t' :
  ai_count (turn_messages u r t' t) = 1%nat.
Proof. unfold turn_messages. by destruct (truthy u). Qed.

(** With a provider that answers, a generate call on a chat with
    participants that is not paused and is below its bounded limit L adds
    exactly one ai message, makes exactly one provider call, and reports
    progress as the new count out of L; it reports completed, and stores
    the completed status, exactly when the new count reaches L. *)
Theorem chat_turn_advances_progress env sid u w s L :
  answers env ->
  files w !! sid = Some s ->
  is_paused s = false ->
  s_type s = "chat" -> characters s <> [] ->
  jget_default (turns s) 6 = Some L -> L <> 999 ->
  Z.of_nat (ai_count (messages s)) < L ->
  let R := generate_session_content env sid u w in
  let n := S (ai_count (messages s)) in
  exists r s',
    fst R = Resp (GenerateReply (Some r) "Content generated successfully"
                    (L <=? Z.of_nat n) (Some (n, Some L))) /\
    files (snd R) !! sid = Some s' /\
    ai_count (messages s') = n /\
    (status s' = "completed" <-> (L <= Z.of_nat n \/ status s = "completed"))
    /\ length (trace (snd R)) = S (length (trace w)).
Proof.
  intros Ha Hs Hp Hty Hne HL H999 Hlt R n. subst R n.
  assert (Hlimit : session_limit s = Some L)
    by (unfold session_limit; by rewrite Hty).
  assert (Hq : jeq (turns s) 999 = false).
  { apply (not_quick_chat s L Hlimit H999). by rewrite Hty. }
  unfold generate_session_content.
  rewrite Hs, Hp, Hq, (check_limit_below s L Hlimit Hlt), Hty.
  change ("chat" =? "story")%string with false. cbn [andb].
  destruct (generate_chat_response_answers env s u w Ha Hne)
    as (r & rq & Hr & ->).
  pose proof (record_turn_messages env s sid u r
                {| files := files w; trace := trace w ++ [rq];
                   log := log w; ticks := ticks w |}) as Hrec.
  cbv zeta in Hrec.
  destruct (record_turn env s sid u r _) as [sd w2]. cbn [fst snd] in Hrec.
  destruct Hrec as [[Hf _] | (_ & t & t' & -> & Hf & Htr)]; [congruence|].
  set (sd := set_messages _ s) in *.
  assert (Hcount : ai_count (messages sd) = S (ai_count (messages s))).
  { subst sd. cbn [messages set_messages].
    rewrite ai_count_app, ai_count_turn_messages. lia. }
  assert (Hlim' : session_limit sd = Some L) by exact Hlimit.
  rewrite (completed_after_bounded sd L Hlim' H999), Hcount.
  assert (Hpm : forall d, s_type d = s_type s -> turns d = turns s ->
                          progress_max d = Some L).
  { intros d Ht Hu. unfold progress_max. by rewrite Ht, Hty, Hu. }
  exists r.
  destruct (L <=? Z.of_nat (S (ai_count (messages s)))) eqn:Ec.
  - unfold mark_completed. cbn [fst snd].
    rewrite (Hpm (set_is_completed (Some true) (set_status "completed" sd))
               eq_refl eq_refl).
    eexists. split; [reflexivity|]. split; [apply write_session_lookup|].
    cbn [messages status set_is_completed set_status].
    split; [exact Hcount|]. split.
    + apply Z.leb_le in Ec. split; auto.
    + cbn [write_session set_files trace]. rewrite Htr. cbn [trace].
      rewrite length_app. cbn. lia.
  - cbn [fst snd]. rewrite (Hpm sd eq_refl eq_refl).
    exists sd. split; [reflexivity|]. rewrite Hf.
    split; [apply lookup_insert_eq|]. split; [exact Hcount|]. split.
    + apply Z.leb_gt in Ec. subst sd. cbn [status set_messages].
      split; [auto | intros [?|?]; [lia | done]].
    + rewrite Htr. cbn [trace]. rewrite length_app. cbn. lia.
Qed.

Lemma chat_turn_advances_progress_witness :
  exists r s',
    fst (generate_session_content env_ok "s1" "And?"
           (world_of chat_one_of_two))
      = Resp (GenerateReply (Some r) "Content generated successfully"
                (2 <=? Z.of_nat 2) (Some (2%nat, Some 2))) /\
    files (snd (generate_session_content env_ok "s1" "And?"
                  (world_of chat_one_of_two))) !! "s1" = Some s' /\
    ai_count (messages s') = 2%nat.
Proof.
  destruct (chat_turn_advances_progress env_ok "s1" "And?"
              (world_of chat_one_of_two) chat_one_of_two 2 env_ok_answers
              eq_refl eq_refl eq_refl)
    as (r & s' & Hr & Hf & Hc & _); try done.
  exists r, s'. auto.
Defined.

(** ** A bounded story run whatever the provider does *)

Lemma generate_story_continuation_calls env s u w :
  (length (trace (snd (generate_story_continuation env s u w)))
   <= S (length (trace w)))%nat.
Proof.
  unfold generate_story_continuation.
  destruct (story_char_index s) as [i|]; [|cbn; lia].
  destruct (characters s !! i) as [c|]; [|cbn; lia].
  destruct (chat_call_trace env c [] (story_user_msg s u) w) as [rq Hrq].
  destruct (chat_call env c [] _ w) as [[r|] w1]; cbn [snd] in *;
    cbn [log_error trace]; rewrite Hrq, length_app; cbn; lia.
Qed.

Lemma generate_story_opening_calls env s w :
  (length (trace (snd (generate_story_opening env s w)))
   <= S (length (trace w)))%nat.
Proof.
  unfold generate_story_opening. destruct (characters s) as [|c cs];
    [cbn; lia|].
  destruct (chat_call_trace env c [] (story_opening_prompt s) w) as [rq Hrq].
  destruct (chat_call env c [] _ w) as [[r|] w1]; cbn [snd] in *;
    cbn [log_error trace]; rewrite Hrq, length_app; cbn; lia.
Qed.

Lemma story_loop_calls env n sid sd w :
  is_Some (files w !! sid) ->
  exists sd' w',
    story_loop env n sid sd w = (Some sd', w') /\
    is_Some (files w' !! sid) /\
    (length (trace w') <= length (trace w) + n)%nat.
Proof.
  revert sd w. induction n as [|n IH]; intros sd w Hp; cbn [story_loop].
  - exists sd, w. split; [done|]. split; [done|]. lia.
  - destruct Hp as [s Hs]. unfold story_iteration. rewrite Hs.
    pose proof (generate_story_continuation_files env s "" w) as Hf.
    pose proof (generate_story_continuation_calls env s "" w) as Hc.
    destruct (generate_story_continuation env s "" w) as [r w1].
    cbn [snd] in Hf, Hc.
    destruct (truthy r); cbn [now].
    + destruct (IH (append_message (ai_message r (clock env (ticks w1))) s)
                  (write_session sid
                     (append_message (ai_message r (clock env (ticks w1))) s)
                     {| files := files w1; trace := trace w1; log := log w1;
                        ticks := S (ticks w1) |}))
        as (sd' & w' & -> & Hp' & Htr).
      { rewrite write_session_lookup. eauto. }
      exists sd', w'. split; [done|]. split; [done|].
      cbn [write_session set_files trace] in Htr. lia.
    + destruct (IH s w1) as (sd' & w' & -> & Hp' & Htr).
      { rewrite Hf, Hs. eauto. }
      exists sd', w'. split; [done|]. split; [done|]. lia.
Qed.

(** A complete-story run with a bounded number of parts, on a session whose
    file exists, always reports completed and stores the completed status
    and flag, whatever the provider returns; it makes at most one call for
    the opening and one per remaining part. *)
Theorem bounded_story_run_always_completes env s sid w L :
  jget_default (parts s) 4 = Some L -> L <> 999 ->
  is_Some (files w !! sid) ->
  let R := generate_complete_story env s sid w in
  reply_completed (fst R) = Some true /\
  (exists s',
     files (snd R) !! sid = Some s' /\
     status s' = "completed" /\ is_completed s' = Some true) /\
  (length (trace (snd R)) <= length (trace w) + 1 + Z.to_nat (L - 1))%nat.
Proof.
  intros HL H999 Hp R. subst R. unfold generate_complete_story. rewrite HL.
  destruct (L =? 999) eqn:E; [lia|].
  pose proof (story_opening_step_present env false s sid w Hp) as Hp1.
  assert (Hc1 : (length (trace (snd (story_opening_step env false s sid w)))
                 <= S (length (trace w)))%nat).
  { unfold story_opening_step.
    pose proof (generate_story_opening_calls env s w) as Hc.
    destruct (generate_story_opening env s w) as [[o|] w1]; cbn [snd] in *;
      [|exact Hc].
    destruct (truthy o); cbn [now snd write_session set_files trace];
      exact Hc. }
  destruct (story_opening_step env false s sid w) as [sd0 w1].
  cbn [snd] in Hp1, Hc1.
  destruct (story_loop_calls env (Z.to_nat (L - 1)) sid sd0 w1 Hp1)
    as (sd1 & w2 & -> & _ & Htr).
  unfold mark_completed. cbn [fst snd reply_completed].
  split; [done|]. split.
  - eexists. split; [apply write_session_lookup|]. done.
  - cbn [write_session set_files trace]. lia.
Qed.

Lemma bounded_story_run_always_completes_witness :
  reply_completed
    (fst (generate_complete_story env_down story_of_two "s1"
            (world_of story_of_two))) = Some true.
Proof.
  apply (bounded_story_run_always_completes env_down story_of_two "s1"
           (world_of story_of_two) 2 eq_refl).
  - lia.
  - exists story_of_two. reflexivity.
Defined.

(** ** Quick chat: choosing what to answer *)

Lemma last_user_index_none ms :
  last_user_index ms = None <-> Forall (fun m => fst m <> "user") ms.
Proof.
  induction ms as [|m ms IH]; cbn [last_user_index].
  - split; auto.
  - destruct (last_user_index ms) as [i|].
    + split; [done|]. intros Hall. inversion Hall as [|? ? _ Hms]; subst.
      apply IH in Hms. done.
    + destruct (String.eqb (fst m) "user") eqn:E.
      * split; [done|]. intros Hall. inversion Hall as [|? ? Hm _]; subst.
        apply String.eqb_eq in E. done.
      * apply String.eqb_neq in E. split; [|done]. intros _.
        constructor; [done|]. by apply IH.
Qed.

Lemma last_user_index_some ms i :
  last_user_index ms = Some i <->
  exists h c rest,
    ms = h ++ ("user", c) :: rest /\ length h = i /\
    Forall (fun m => fst m <> "user") rest.
Proof.
  revert i. induction ms as [|m ms IH]; intros i; cbn [last_user_index].
  - split; [done|]. intros (h & c & rest & Heq & _). by destruct h.
  - destruct (last_user_index ms) as [j|] eqn:Ej.
    + split.
      * intros [= <-]. destruct (proj1 (IH j) eq_refl) as (h & c & rest & -> & <- & Hr).
        exists (m :: h), c, rest. done.
      * intros (h & c & rest & Heq & <- & Hr). destruct h as [|m0 h].
        -- injection Heq as -> ->.
           apply last_user_index_none in Hr. congruence.
        -- injection Heq as -> ->. cbn [length]. f_equal.
           assert (Some j = Some (length h)) as [= ->]; [|done].
           apply IH. exists h, c, rest. done.
    + apply last_user_index_none in Ej.
      destruct (String.eqb (fst m) "user") eqn:E.
      * apply String.eqb_eq in E. split.
        -- intros [= <-]. exists [], (snd m), ms. destruct m; cbn in *.
           by subst.
        -- intros (h & c & rest & Heq & <- & Hr). destruct h as [|m0 h]; [done|].
           injection Heq as -> ->.
           apply Forall_app in Ej as [_ Hu]. inversion Hu; subst. done.
      * apply String.eqb_neq in E. split; [done|].
        intros (h & c & rest & Heq & <- & Hr). destruct h as [|m0 h].
        -- injection Heq as ->. done.
        -- injection Heq as -> ->.
           apply Forall_app in Ej as [_ Hu]. inversion Hu; subst. done.
Qed.

(** The quick-chat endpoint answers the last message with role user: the
    selected current message is its (non-empty) content, the history is
    exactly the messages before it, and whatever follows it is dropped.
    There is no selection when no message has role user or when the last
    such message is empty. *)
Theorem quick_chat_select_spec ms h cur :
  quick_chat_select ms = Some (h, cur) <->
  cur <> "" /\
  exists rest,
    ms = h ++ ("user", cur) :: rest /\
    Forall (fun m => fst m <> "user") rest.
Proof.
  unfold quick_chat_select. split.
  - destruct (last_user_index ms) as [i|] eqn:Ei; [|done].
    apply last_user_index_some in Ei as (h0 & c & rest & -> & <- & Hr).
    rewrite list_lookup_middle by done. cbn [snd].
    destruct (truthy c) eqn:Et; [|done].
    rewrite take_app_length. intros [= <- <-].
    split; [by destruct c|]. eauto.
  - intros (Hne & rest & -> & Hr).
    assert (Hi : last_user_index (h ++ ("user", cur) :: rest)
                 = Some (length h)).
    { apply last_user_index_some. eauto 10. }
    rewrite Hi, list_lookup_middle by done. cbn [snd].
    destruct cur; [done|]. cbn [truthy]. by rewrite take_app_length.
Qed.

Example quick_chat_select_examples :
  quick_chat_select
    [("user", "Hi"); ("assistant", "Hello."); ("user", "And?");
     ("assistant", "Well...")]
  = Some ([("user", "Hi"); ("assistant", "Hello.")], "And?") /\
  quick_chat_select [("user", "Hi"); ("user", "")] = None /\
  quick_chat_select [("assistant", "Hello.")] = None.
Proof. repeat split. Qed.

(** ** Speaker rotation in the story auto-run *)

Lemma generate_story_continuation_speaker env s u w :
  answers env -> characters s <> [] ->
  exists r rq c,
    truthy r = true /\
    characters s !! (length (messages s) mod length (characters s))%nat
      = Some c /\
    rq_agent rq = CharacterAgent c /\
    generate_story_continuation env s u w =
      (r, {| files := files w; trace := trace w ++ [rq];
             log := log w; ticks := ticks w |}).
Proof.
  intros Ha Hne. unfold generate_story_continuation, story_char_index.
  destruct (rotation_lookup (characters s) (length (messages s)) Hne)
    as [c Hc].
  destruct (length (characters s)) as [|n] eqn:El.
  { destruct (characters s); [done | discriminate]. }
  rewrite Hc. unfold chat_call, client_create.
  destruct (Ha (length (trace w))
              {| rq_agent := CharacterAgent c; rq_history := [];
                 rq_user_msg := story_user_msg s u |}) as (t & -> & Ht).
  exists (strip t), {| rq_agent := CharacterAgent c; rq_history := [];
                       rq_user_msg := story_user_msg s u |}, c.
  rewrite strip_idempotent.
  split; [exact Ht|]. split; [done|]. split; reflexivity.
Qed.

Lemma story_loop_speakers env n sid sd w :
  answers env -> characters sd <> [] ->
  files w !! sid = Some sd ->
  exists new rqs w',
    story_loop env n sid sd w
      = (Some (set_messages (messages sd ++ new) sd), w') /\
    trace w' = trace w ++ rqs /\ length rqs = n /\
    forall j, (j < n)%nat ->
      exists rq c,
        rqs !! j = Some rq /\
        characters sd !! ((length (messages sd) + j)
                          mod length (characters sd))%nat = Some c /\
        rq_agent rq = CharacterAgent c.
Proof.
  intros Ha. revert sd w. induction n as [|n IH]; intros sd w Hne Hf.
  - exists [], [], w. cbn [story_loop]. rewrite !app_nil_r.
    assert (set_messages (messages sd) sd = sd) as -> by (by destruct sd).
    repeat split; auto. intros j Hj. lia.
  - cbn [story_loop]. unfold story_iteration. rewrite Hf.
    destruct (generate_story_continuation_speaker env sd "" w Ha Hne)
      as (r & rq & c & Hr & Hc & Hag & ->).
    rewrite Hr. cbn [now].
    set (m := ai_message r _). set (w1 := write_session sid _ _).
    destruct (IH (append_message m sd) w1)
      as (new & rqs & w' & Hl & Htr & Hlen & Hsp).
    { exact Hne. }
    { apply write_session_lookup. }
    unfold append_message in *.
    cbn [messages set_messages characters] in *.
    exists (m :: new), (rq :: rqs), w'.
    replace (messages sd ++ m :: new) with ((messages sd ++ [m]) ++ new)
      by (by rewrite <- app_assoc).
    split; [exact Hl|]. split.
    { rewrite Htr. subst w1. cbn [write_session set_files trace].
      by rewrite <- app_assoc. }
    split; [cbn; lia|].
    intros [|j] Hj.
    + exists rq, c. rewrite Nat.add_0_r. done.
    + destruct (Hsp j ltac:(lia)) as (rq' & c' & H1 & H2 & H3).
      exists rq', c'. split; [exact H1|]. split; [|exact H3].
      rewrite length_app in H2. cbn [length] in H2.
      replace (length (messages sd) + S j)%nat
        with (length (messages sd) + 1 + j)%nat by lia. exact H2.
Qed.

(** In a bounded complete-story run under a provider that answers, the
    provider calls are made in rotation: call k (counting from 0, the
    opening) is sent as the participant at index k modulo the number of
    participants. *)
Theorem story_auto_run_rotates env s sid w L :
  answers env ->
  characters s <> [] ->
  jget_default (parts s) 4 = Some L -> 1 <= L -> L <> 999 ->
  exists rqs,
    trace (snd (generate_complete_story env s sid w)) = trace w ++ rqs /\
    length rqs = Z.to_nat L /\
    forall k, (k < Z.to_nat L)%nat ->
      exists rq c,
        rqs !! k = Some rq /\
        characters s !! (k mod length (characters s))%nat = Some c /\
        rq_agent rq = CharacterAgent c.
Proof.
  intros Ha Hne HL H1 H999. unfold generate_complete_story. rewrite HL.
  destruct (L =? 999) eqn:E; [lia|].
  unfold story_opening_step, generate_story_opening.
  destruct (characters s) as [|c0 cs] eqn:Ecs; [done|].
  unfold chat_call, client_create.
  destruct (Ha (length (trace w))
              {| rq_agent := CharacterAgent c0; rq_history := [];
                 rq_user_msg := story_opening_prompt s |}) as (t & -> & Ht).
  rewrite strip_idempotent, Ht. cbn [now].
  set (rq0 := {| rq_agent := CharacterAgent c0 |}).
  set (m := ai_message (strip t) _). set (w1 := write_session sid _ _).
  destruct (story_loop_speakers env (Z.to_nat (L - 1)) sid
              (set_messages [m] s) w1 Ha)
    as (new & rqs & w2 & -> & Htr & Hlen & Hsp).
  { cbn [characters set_messages]. by rewrite Ecs. }
  { apply write_session_lookup. }
  unfold mark_completed. cbn [snd write_session set_files trace].
  exists (rq0 :: rqs). split.
  { rewrite Htr. subst w1. cbn [write_session set_files trace].
    by rewrite <- app_assoc. }
  split; [cbn; lia|].
  cbn [characters set_messages messages length] in Hsp. rewrite Ecs in Hsp.
  intros [|k] Hk.
  - exists rq0, c0. repeat split. rewrite Nat.Div0.mod_0_l. reflexivity.
  - destruct (Hsp k ltac:(lia)) as (rq & c & H2 & H3 & H4).
    exists rq, c. repeat split; auto.
Qed.

Lemma story_auto_run_rotates_witness :
  exists rqs,
    trace (snd (generate_complete_story env_ok story_of_three "s1"
                  (world_of story_of_three)))
      = trace (world_of story_of_three) ++ rqs /\
    length rqs = Z.to_nat 3 /\
    forall k, (k < Z.to_nat 3)%nat ->
      exists rq c,
        rqs !! k = Some rq /\
        characters story_of_three
          !! (k mod length (characters story_of_three))%nat = Some c /\
        rq_agent rq = CharacterAgent c.
Proof.
  apply (story_auto_run_rotates env_ok story_of_three "s1"
           (world_of story_of_three) 3 env_ok_answers).
  - discriminate.
  - reflexivity.
  - lia.
  - lia.
Defined.

Lemma chat_speaker_round_robin_witness :
  exists rq,
    trace (snd (generate_chat_response env_ok multi_chat "Hi"
                  (world_of multi_chat)))
      = trace (world_of multi_chat) ++ [rq] /\
    rq_agent rq = CharacterAgent nova.
Proof.
  apply (chat_speaker_round_robin env_ok multi_chat "Hi"
           (world_of multi_chat) nova).
  - discriminate.
  - reflexivity.
Defined.
